(** * Sherlock: champion decision pipeline and shadow evaluator

    A shallow embedding of [champion_function.py] (velocity and
    idempotency state machine, device graph, risk scorer, decision
    logic) and of [shadow_function.py] (conflict detection and batch
    summary), with the properties of the specification stated over it.

    External services are modelled by their documented behaviour:
    the DynamoDB state table is a finite map from [user_id] to an item
    whose attributes are all optional, the graph table is a finite map
    keyed by its primary key, and every remote call may raise, which is
    decided by a per-invocation fault record.  Python ints are unbounded
    integers.  The floats of the champion (amounts, the prediction of
    the model, scores) are idealised as rationals; the agreement rate of
    the shadow evaluator is computed as the code computes it, each float
    operation rounded to binary64. *)

From Stdlib Require Import ZArith QArith Qround Lia Ascii.
From stdpp Require Import base option list gmap strings pretty.

Close Scope Q_scope.
Local Open Scope string_scope.
Local Open Scope Z_scope.

(** ** Python values used by the handlers *)

(** Truthiness of [str] and of [Optional[str]] ([if not device_id]). *)
Definition str_truthy (s : string) : bool :=
  match s with EmptyString => false | String _ _ => true end.

Definition opt_truthy (o : option string) : bool :=
  match o with Some s => str_truthy s | None => false end.

(** A risk score is a Python [int] on the heuristic path and a [float]
    on the model path; the two print differently but compare by value. *)
Inductive Number :=
| PyInt (z : Z)
| PyFloat (q : Q).

Definition to_Q (n : Number) : Q :=
  match n with PyInt z => inject_Z z | PyFloat q => q end.

(** [x > k] on numbers. *)
Definition num_gt (n : Number) (k : Z) : bool :=
  negb (Qle_bool (to_Q n) (inject_Z k)).

(** Rounding to the nearest integer, ties to even, as [round] does. *)
Definition round_half_even (q : Q) : Z :=
  let f := Qfloor q in
  match Qcompare (q - inject_Z f) (1 # 2) with
  | Lt => f
  | Gt => f + 1
  | Eq => if Z.even f then f else f + 1
  end.

(** [round(x, 2)]: an [int] is returned unchanged, a [float] is rounded
    to two decimals, ties of its exact value to even; the result stands
    for the decimal that [json.dumps] prints. *)
Definition round2 (n : Number) : Number :=
  match n with
  | PyInt z => PyInt z
  | PyFloat q => PyFloat (Qmake (round_half_even (q * inject_Z 100)) 100)
  end.

(** The binary64 value nearest to a non-negative rational, ties to the
    even significand, as a rational: the spacing is [2 ^ e / 2 ^ 1074],
    with [e = 0] in the subnormal range. *)
Definition binary64_pos (q : Q) : Q :=
  let n := Qfloor (q * inject_Z (2 ^ 1074)) in
  let e := Z.max 0 (Z.log2 n - 52) in
  inject_Z (round_half_even (q * inject_Z (2 ^ 1074) / inject_Z (2 ^ e)) * 2 ^ e)
  / inject_Z (2 ^ 1074).

(** What a correctly rounded float operation (true division of two
    ints, [*] on floats) returns when its exact result is [q], for
    magnitudes below [2 ^ 1024]. *)
Definition binary64 (q : Q) : Q :=
  let q := Qred q in
  if Qle_bool (inject_Z 0) q then binary64_pos q else Qopp (binary64_pos (Qopp q)).

(** ** Data model *)

Module Payload.
(** [TransactionPayload], after validation: [location] already carries
    its default ["unknown"]. *)
Record t := mk {
  transaction_id : string;
  user_id : string;
  amount : Q;
  merchant : string;
  location : string;
  device_id : option string
}.
End Payload.

Module Item.
(** One row of the state table; DynamoDB attributes may be absent. *)
Record t := mk {
  velocity_counter : option Z;
  last_location : option string;
  ttl_window : option Z;
  last_transaction_id : option string;
  last_decision : option string;
  last_risk_score : option Q
}.

(** The item seen by an expression when no row exists. *)
Definition empty : t := mk None None None None None None.
End Item.

Module Edge.
(** Non-key attributes of a row of the graph table. *)
Record t := mk { timestamp : Z; ttl : Z }.
End Edge.

Module Body.
(** JSON body of a 200 response ([latency_ms] is wall-clock time and
    is left out; [model_loaded] is absent from replay bodies). *)
Record t := mk {
  status : string;
  transaction_id : string;
  risk_score : Number;
  reasons : list string;
  velocity_counter : Z;
  model_loaded : option bool;
  idempotent : bool
}.
End Body.

Inductive Exn :=
| ConditionalCheckFailedException
| ClientError_other
| NameError.

Inductive Response :=
| Response200 (body : Body.t)
| Response500 (e : Exn).

(** The message sent to the shadow queue (lines 449-454), without its
    [transaction] member: that member is the request body as it was
    received (line 450), which the pipeline below, starting from the
    validated payload, does not see. *)
Record ShadowMsg := {
  champion_decision : string;
  champion_risk_score : Number;
  sm_timestamp : Z
}.

Inductive LogEvent :=
| LogIdempotentReplay (tid : string)
| LogFraudRing (device : string) (count : Z)
| LogGraphAnalysisFailed
| LogGraphUpdateFailed
| LogInferenceError
| LogAuditFailed
| LogShadowDispatchFailed
| LogError (e : Exn).

(** ** World: the services the handler talks to *)

Record World := mkWorld {
  state_table : gmap string Item.t;
  graph_table : gmap (string * string) Edge.t;
  shadow_queue : list ShadowMsg;
  log : list LogEvent
}.

Definition empty_world : World := mkWorld ∅ ∅ [] [].

(** Module-level configuration and the model handle, as they stand after
    [load_model] has been attempted. *)
Record Env := {
  GRAPH_TABLE : option string;
  MODEL_LOADED : bool;
  (** [Booster.predict] on one feature row; [None] when it raises. *)
  xgboost_model : option (list Q → option Q);
  (** Python's [hash] on strings (salted per process). *)
  py_hash : string → Z
}.

(** What the outside world does during one invocation: the clock, and
    which remote calls fail. *)
Record Invocation := {
  now : Z;
  velocity_update_fails : bool;
  get_item_fails : bool;
  graph_put_fails : bool;
  graph_query_fails : bool;
  update_decision_fails : bool;
  send_message_fails : bool
}.

Definition calm (t : Z) : Invocation :=
  {| now := t; velocity_update_fails := false; get_item_fails := false;
     graph_put_fails := false; graph_query_fails := false;
     update_decision_fails := false; send_message_fails := false |}.

(** ** Computations that touch the world and may raise *)

Inductive Outcome (A : Type) :=
| Returned (a : A)
| Raised (e : Exn).
Arguments Returned {A} a.
Arguments Raised {A} e.

Definition M (A : Type) : Type := World → Outcome A * World.

Definition ret {A} (a : A) : M A := λ w, (Returned a, w).
Definition raise {A} (e : Exn) : M A := λ w, (Raised e, w).

Definition bind {A B} (m : M A) (k : A → M B) : M B :=
  λ w, match m w with
       | (Returned a, w') => k a w'
       | (Raised e, w') => (Raised e, w')
       end.

Definition try_except {A} (m : M A) (handler : Exn → M A) : M A :=
  λ w, match m w with
       | (Returned a, w') => (Returned a, w')
       | (Raised e, w') => handler e w'
       end.

Notation "'let*' x ':=' m 'in' k" := (bind m (λ x, k))
  (at level 10, x pattern, m at level 100, k at level 200).
Notation "m ';;' k" := (bind m (λ _, k))
  (at level 100, k at level 200, right associativity).

Definition print (ev : LogEvent) : M unit :=
  λ w, (Returned tt,
        mkWorld (state_table w) (graph_table w) (shadow_queue w) (log w ++ [ev])).

Definition set_state_table (t : gmap string Item.t) (w : World) : World :=
  mkWorld t (graph_table w) (shadow_queue w) (log w).

Definition set_graph_table (g : gmap (string * string) Edge.t) (w : World) : World :=
  mkWorld (state_table w) g (shadow_queue w) (log w).

Definition push_shadow (m : ShadowMsg) (w : World) : World :=
  mkWorld (state_table w) (graph_table w) (shadow_queue w ++ [m]) (log w).

(** ** DynamoDB, as the handler uses it *)

Inductive ReturnValues := NONE | ALL_OLD | ALL_NEW.

(** The [Attributes] entry of an [update_item] response. *)
Definition returned_attributes (rv : ReturnValues) (old new : Item.t) : Item.t :=
  match rv with
  | NONE => Item.empty
  | ALL_OLD => old
  | ALL_NEW => new
  end.

(** [ConditionExpression]:
    [attribute_not_exists(last_transaction_id) OR last_transaction_id <> :new_tx_id]. *)
Definition condition_holds (old : Item.t) (new_tx_id : string) : bool :=
  match Item.last_transaction_id old with
  | None => true
  | Some t => negb (bool_decide (t = new_tx_id))
  end.

(** [UpdateExpression]:
    [ADD velocity_counter :inc SET last_location = :loc, ttl_window = :ttl,
     last_transaction_id = :new_tx_id, last_decision = :placeholder_decision];
    [ADD] starts from 0 when the attribute is absent. *)
Definition apply_velocity_update (old : Item.t) (loc : string) (ttl : Z)
    (new_tx_id placeholder_decision : string) : Item.t :=
  Item.mk (Some (default 0 (Item.velocity_counter old) + 1))
          (Some loc) (Some ttl) (Some new_tx_id) (Some placeholder_decision)
          (Item.last_risk_score old).

(** The conditional [update_item] on the state table (lines 281-295). *)
Definition update_item_velocity (inv : Invocation) (rv : ReturnValues)
    (user loc : string) (ttl : Z) (new_tx_id : string) : M Item.t :=
  λ w,
    if velocity_update_fails inv then (Raised ClientError_other, w)
    else
      let old := default Item.empty (state_table w !! user) in
      if condition_holds old new_tx_id then
        let new := apply_velocity_update old loc ttl new_tx_id "PROCESSING" in
        (Returned (returned_attributes rv old new),
         set_state_table (<[user := new]> (state_table w)) w)
      else (Raised ConditionalCheckFailedException, w).

(** [get_item]; the caller reads [existing_record.get('Item', {})]. *)
Definition get_item (inv : Invocation) (user : string) : M Item.t :=
  λ w,
    if get_item_fails inv then (Raised ClientError_other, w)
    else (Returned (default Item.empty (state_table w !! user)), w).

(** [UpdateExpression]: [SET last_decision = :decision, last_risk_score = :risk_score],
    unconditional, creating the row if needed (lines 406-414). *)
Definition apply_decision_update (old : Item.t) (decision : string)
    (score : Number) : Item.t :=
  Item.mk (Item.velocity_counter old) (Item.last_location old)
          (Item.ttl_window old) (Item.last_transaction_id old)
          (Some decision) (Some (to_Q score)).

Definition update_item_decision (inv : Invocation) (user decision : string)
    (score : Number) : M unit :=
  λ w,
    if update_decision_fails inv then (Raised ClientError_other, w)
    else
      let old := default Item.empty (state_table w !! user) in
      (Returned tt,
       set_state_table (<[user := apply_decision_update old decision score]>
                          (state_table w)) w).

(** Modelled from the spec: the key schema of the graph table is declared
    in the infrastructure, which is not part of the sources.  The table is
    taken with primary key [(device_id, user_id)], under which the
    [Select='COUNT'] query of [check_fraud_ring] returns the number of
    distinct users linked to a device, as its docstring and the
    specification's [distinct_user_count] say.  [put_item] replaces the row
    that has the same primary key. *)
Definition graph_put_item (inv : Invocation) (device user : string)
    (e : Edge.t) : M unit :=
  λ w,
    if graph_put_fails inv then (Raised ClientError_other, w)
    else (Returned tt,
          set_graph_table (<[(device, user) := e]> (graph_table w)) w).

Definition rows_of_device (device : string)
    (g : gmap (string * string) Edge.t) : gmap (string * string) Edge.t :=
  filter (λ kv, kv.1.1 = device) g.

(** [query(KeyConditionExpression='device_id = :did', Select='COUNT')['Count']]. *)
Definition graph_query_count (inv : Invocation) (device : string) : M Z :=
  λ w,
    if graph_query_fails inv then (Raised ClientError_other, w)
    else (Returned (Z.of_nat (size (rows_of_device device (graph_table w)))), w).

Definition sqs_send_message (inv : Invocation) (m : ShadowMsg) : M unit :=
  λ w,
    if send_message_fails inv then (Raised ClientError_other, w)
    else (Returned tt, push_shadow m w).

(** ** champion_function.py *)

Section Champion.
Context (env : Env).

(** [check_fraud_ring(device_id, current_user)] (lines 166-193). *)
Definition check_fraud_ring (inv : Invocation) (device_id : option string)
    (current_user : string) : M (bool * Z) :=
  match device_id with
  | Some d =>
      if negb (str_truthy d) || negb (opt_truthy (GRAPH_TABLE env))
      then ret (false, 0)
      else
        try_except
          (let* count := graph_query_count inv d in
           if bool_decide (count > 3) then
             print (LogFraudRing d count);;
             ret (true, count)
           else ret (false, count))
          (λ _, print LogGraphAnalysisFailed;; ret (false, 0))
  | None => ret (false, 0)
  end.

(** [record_device_usage(device_id, user_id, current_time)] (lines 195-214). *)
Definition record_device_usage (inv : Invocation) (device_id : option string)
    (user_id : string) (current_time : Z) : M unit :=
  match device_id with
  | Some d =>
      if negb (str_truthy d) || negb (opt_truthy (GRAPH_TABLE env))
      then ret tt
      else
        try_except
          (graph_put_item inv d user_id
             (Edge.mk current_time (current_time + 86400 * 30)))
          (λ _, print LogGraphUpdateFailed)
  | None => ret tt
  end.

(** Lines 281-300: the atomic update and the two values read from its
    [Attributes]. *)
Definition velocity_and_idempotency_check (inv : Invocation)
    (payload : Payload.t) (ttl_window : Z) : M (Z * string) :=
  let* attributes :=
    update_item_velocity inv ALL_NEW (Payload.user_id payload)
      (Payload.location payload) ttl_window (Payload.transaction_id payload) in
  let velocity_counter := default 1 (Item.velocity_counter attributes) in
  let last_location :=
    default (Payload.location payload) (Item.last_location attributes) in
  ret (velocity_counter, last_location).

(** Lines 305-334: the replay branch. *)
Definition idempotent_replay (inv : Invocation) (payload : Payload.t)
    : M Response :=
  print (LogIdempotentReplay (Payload.transaction_id payload));;
  let* existing_record := get_item inv (Payload.user_id payload) in
  let last_decision := default "UNKNOWN" (Item.last_decision existing_record) in
  let last_risk_score :=
    PyFloat (default (inject_Z 0) (Item.last_risk_score existing_record)) in
  ret (Response200
         (Body.mk last_decision (Payload.transaction_id payload)
            last_risk_score ["IDEMPOTENT_REPLAY"] 0 None true)).

(** The heuristic of lines 380 and 382. *)
Definition heuristic_score (velocity_counter : Z) (impossible_travel : bool) : Z :=
  50 + velocity_counter * 5 + (if impossible_travel then 20 else 0).

Definition features (payload : Payload.t) (velocity_counter : Z)
    (impossible_travel : bool) : list Q :=
  [ Payload.amount payload;
    inject_Z velocity_counter;
    inject_Z (if impossible_travel then 1 else 0);
    inject_Z (py_hash env (Payload.merchant payload) `mod` 1000);
    inject_Z (py_hash env (Payload.location payload) `mod` 100) ].

(** [predict] raising inside the [try] of line 361. *)
Definition model_predict (model : list Q → option Q) (x : list Q) : M Q :=
  match model x with
  | Some p => ret p
  | None => raise ClientError_other
  end.

(** Lines 358-382. *)
Definition ai_inference (payload : Payload.t) (velocity_counter : Z)
    (impossible_travel : bool) : M Number :=
  match MODEL_LOADED env, xgboost_model env with
  | true, Some model =>
      try_except
        (let* prediction :=
           model_predict model (features payload velocity_counter impossible_travel) in
         ret (PyFloat (prediction * inject_Z 100)))
        (λ _, print LogInferenceError;;
              ret (PyInt (heuristic_score velocity_counter impossible_travel)))
  | _, _ =>
      ret (PyInt (heuristic_score velocity_counter impossible_travel))
  end.

(** Lines 388-399. *)
Definition decision_reasons (high_velocity impossible_travel : bool)
    (risk_score : Number) (is_fraud_ring : bool) (linked_users : Z)
    : list string :=
  (if high_velocity then ["HIGH_VELOCITY"] else []) ++
  (if impossible_travel then ["IMPOSSIBLE_TRAVEL"] else []) ++
  (if num_gt risk_score 80 then ["HIGH_RISK_SCORE"] else []) ++
  (if is_fraud_ring
   then ["FRAUD_RING_DETECTED_USERS_" +:+ pretty linked_users] else []).

Definition decision_of (reasons : list string) : string :=
  match reasons with [] => "ALLOW" | _ :: _ => "BLOCK" end.

(** Lines 420-442.  [FIREHOSE_STREAM] is not defined anywhere in the
    module, so building the call raises [NameError], which the
    surrounding [except Exception] reports. *)
Definition audit_logging : M unit :=
  try_except (raise NameError) (λ _, print LogAuditFailed).

(** Lines 448-462. *)
Definition shadow_dispatch (inv : Invocation) (decision : string)
    (risk_score : Number) : M unit :=
  try_except
    (sqs_send_message inv
       {| champion_decision := decision;
          champion_risk_score := round2 risk_score; sm_timestamp := now inv |})
    (λ _, print LogShadowDispatchFailed).

(** Lines 343-351: the graph is updated first, then queried. *)
Definition graph_analysis (inv : Invocation) (payload : Payload.t)
    : M (bool * Z) :=
  if opt_truthy (Payload.device_id payload) then
    record_device_usage inv (Payload.device_id payload)
      (Payload.user_id payload) (now inv);;
    check_fraud_ring inv (Payload.device_id payload) (Payload.user_id payload)
  else ret (false, 0).

(** Line 340. *)
Definition travel_flag (last_location : string) (payload : Payload.t)
    (velocity_counter : Z) : bool :=
  negb (bool_decide (last_location = Payload.location payload))
  && bool_decide (velocity_counter > 1).

(** Lines 339-488: everything after a successful velocity update. *)
Definition score_and_decide (inv : Invocation) (payload : Payload.t)
    (velocity_counter : Z) (last_location : string) : M Response :=
  let high_velocity := bool_decide (velocity_counter > 5) in
  let impossible_travel := travel_flag last_location payload velocity_counter in
  let* ring := graph_analysis inv payload in
  let is_fraud_ring := ring.1 in
  let linked_users := ring.2 in
  let* risk_score := ai_inference payload velocity_counter impossible_travel in
  let reasons :=
    decision_reasons high_velocity impossible_travel risk_score
      is_fraud_ring linked_users in
  let decision := decision_of reasons in
  update_item_decision inv (Payload.user_id payload) decision (round2 risk_score);;
  audit_logging;;
  shadow_dispatch inv decision risk_score;;
  ret (Response200
         (Body.mk decision (Payload.transaction_id payload) (round2 risk_score)
            reasons velocity_counter (Some (MODEL_LOADED env)) false)).

(** The body of the outer [try] (lines 271-488), for a validated payload. *)
Definition pipeline (inv : Invocation) (payload : Payload.t) : M Response :=
  let ttl_window := now inv + 60 in
  let* r :=
    try_except
      (let* v := velocity_and_idempotency_check inv payload ttl_window in
       ret (inr v))
      (λ e, match e with
            | ConditionalCheckFailedException =>
                let* resp := idempotent_replay inv payload in
                ret (inl resp)
            | _ => raise e
            end) in
  match r with
  | inl resp => ret resp
  | inr (velocity_counter, last_location) =>
      score_and_decide inv payload velocity_counter last_location
  end.

(** [lambda_handler] for an authenticated request whose body validated:
    the outer [except Exception] (lines 490-505) turns anything raised
    into a 500. *)
Definition lambda_handler (inv : Invocation) (payload : Payload.t)
    : World → Response * World :=
  λ w,
    match pipeline inv payload w with
    | (Returned resp, w') => (resp, w')
    | (Raised e, w') =>
        (Response500 e,
         mkWorld (state_table w') (graph_table w') (shadow_queue w')
                 (log w' ++ [LogError e]))
    end.

(** A run of the handler over a sequence of requests. *)
Fixpoint run (reqs : list (Invocation * Payload.t)) (w : World)
    : list Response * World :=
  match reqs with
  | [] => ([], w)
  | (inv, p) :: rest =>
      let '(r, w1) := lambda_handler inv p w in
      let '(rs, w2) := run rest w1 in
      (r :: rs, w2)
  end.
End Champion.

(** ** shadow_function.py *)

Module Shadow.

(** A decoded JSON document. *)
#[warnings="-register-all"] Inductive Json :=
| JNull
| JBool (b : bool)
| JNum (n : Number)
| JStr (s : string)
| JArr (l : list Json)
| JObj (fields : list (string * Json)).

(** One SQS record together with the value [random.uniform(0, 100)]
    yields when the loop body reaches it.  [body] is [None] when
    [json.loads(record['body'])] raises. *)
Record SqsRecord := {
  body : option Json;
  shadow_draw : Q
}.

Fixpoint assoc (k : string) (fields : list (string * Json)) : option Json :=
  match fields with
  | [] => None
  | (k', v) :: rest => if bool_decide (k' = k) then Some v else assoc k rest
  end.

(** [d.get(k, dflt)]; raises [AttributeError] unless [d] is a dict. *)
Definition dict_get (d : Json) (k : string) (dflt : Json) : option Json :=
  match d with
  | JObj fields => Some (default dflt (assoc k fields))
  | _ => None
  end.

(** Line 44. *)
Definition shadow_decision_of (shadow_risk_score : Q) : string :=
  if negb (Qle_bool shadow_risk_score (inject_Z 75)) then "BLOCK" else "ALLOW".

(** [champion_decision != shadow_decision], the left side being any JSON
    value and the right side a [str]. *)
Definition py_ne (champion_decision : Json) (shadow_decision : string) : bool :=
  match champion_decision with
  | JStr s => negb (bool_decide (s = shadow_decision))
  | _ => true
  end.

(** The values the loop body reads before the comparison (lines 27-33);
    [None] when one of the reads raises. *)
Definition parse_message (r : SqsRecord) : option Json :=
  message_body ← body r;
  transaction ← dict_get message_body "transaction" (JObj []);
  champion_decision ← dict_get message_body "champion_decision" (JStr "UNKNOWN");
  _ ← dict_get message_body "champion_risk_score" (JNum (PyInt 0));
  _ ← dict_get transaction "user_id" (JStr "unknown");
  _ ← dict_get transaction "amount" (JNum (PyInt 0));
  Some champion_decision.

(** One iteration of the loop (lines 24-61): whether [conflicts_detected]
    is incremented.  An exception before line 50 leaves the counter
    alone; one raised by the prints after the increment cannot undo it. *)
Definition is_conflict (r : SqsRecord) : bool :=
  match parse_message r with
  | Some champion_decision =>
      py_ne champion_decision (shadow_decision_of (shadow_draw r))
  | None => false
  end.

Fixpoint count_conflicts (records : list SqsRecord) (conflicts_detected : Z) : Z :=
  match records with
  | [] => conflicts_detected
  | r :: rest =>
      count_conflicts rest
        (if is_conflict r then conflicts_detected + 1 else conflicts_detected)
  end.

Record Summary := {
  processed : Z;
  conflicts : Z;
  agreement_rate : Number
}.




(** Lines 22-79.  Line 65 is evaluated in floating point: the true
    division of two ints, then the product with 100, each correctly
    rounded. *)
Definition lambda_handler (records : list SqsRecord) : Summary :=
  let conflicts_detected := count_conflicts records 0 in
  let total_processed := Z.of_nat (length records) in
  let agreement_rate :=
    if bool_decide (total_processed > 0) then
      PyFloat (binary64
                 (binary64 (inject_Z (total_processed - conflicts_detected)
                            / inject_Z total_processed)
                  * inject_Z 100)%Q)
    else PyInt 0 in
  {| processed := total_processed;
     conflicts := conflicts_detected;
     agreement_rate := round2 agreement_rate |}.

End Shadow.

(** The pipeline on a validated payload, under the name the outer handler
    calls it by. *)
Definition decide_transaction := lambda_handler.

(** ** champion_function.py: cold start, secret, authentication, validation *)

(** Lines printed by the cold-start and authentication code. *)
Inductive Line :=
| DepsAlreadyLoaded
| DownloadingDeps
| ExtractingDeps
| DepsLoaded
| DepsLoadingFailed
| DownloadingModel
| ModelLoaded
| ModelLoadingFailed
| SecretArnNotConfigured
| FailedToFetchSecret
| AuthenticationFailed.

Module Globals.
(** The module globals of lines 60-63, with what they depend on in the
    container: [sys.path], the files present under [/tmp], and the lines
    printed so far. *)
Record t := mk {
  xgboost_model : option (list Q → option Q);
  MODEL_LOADED : bool;
  DEPS_LOADED : bool;
  SECRET_CACHE : option string;
  sys_path : list string;
  tmp : gset string;
  printed : list Line
}.

(** A fresh container. *)
Definition cold : t := mk None false false None [] ∅ [].
End Globals.

Module Config.
(** The environment variables the handler reads. *)
Record t := mk {
  SECRET_ARN : option string;
  GRAPH_TABLE : option string;
  py_hash : string → Z
}.
End Config.

(** [get_secret_value]: it raises, or answers without or with a
    [SecretString]. *)
Inductive SecretFetch :=
| GetSecretRaises
| NoSecretString
| SecretString (value : string).

(** What surrounds the container during one invocation: S3, the zip
    archive, the import system and Secrets Manager. *)
Record Surroundings := {
  deps_download_fails : bool;
  (** [ZipFile] or [extractall] raises. *)
  extract_fails : bool;
  (** The paths extraction leaves on disk, also when it raises part-way. *)
  extracted : gset string;
  import_xgboost_fails : bool;
  model_download_fails : bool;
  (** [Booster.load_model(local_path)]; [None] when it raises. *)
  booster_load : option (list Q → option Q);
  (** [xgb.Booster()]. *)
  empty_booster : list Q → option Q;
  secret : SecretFetch
}.

Module Api.

Definition deps_path : string := "/tmp/xgboost_deps.zip".
Definition extract_path : string := "/tmp/python".
Definition xgboost_dir : string := "/tmp/python/xgboost".
Definition local_path : string := "/tmp/model.json".

Definition say (l : Line) (g : Globals.t) : Globals.t :=
  Globals.mk (Globals.xgboost_model g) (Globals.MODEL_LOADED g)
    (Globals.DEPS_LOADED g) (Globals.SECRET_CACHE g) (Globals.sys_path g)
    (Globals.tmp g) (Globals.printed g ++ [l]).

Definition set_deps_loaded (b : bool) (g : Globals.t) : Globals.t :=
  Globals.mk (Globals.xgboost_model g) (Globals.MODEL_LOADED g) b
    (Globals.SECRET_CACHE g) (Globals.sys_path g) (Globals.tmp g)
    (Globals.printed g).

Definition set_model_loaded (b : bool) (g : Globals.t) : Globals.t :=
  Globals.mk (Globals.xgboost_model g) b (Globals.DEPS_LOADED g)
    (Globals.SECRET_CACHE g) (Globals.sys_path g) (Globals.tmp g)
    (Globals.printed g).

Definition set_model (m : option (list Q → option Q)) (g : Globals.t) : Globals.t :=
  Globals.mk m (Globals.MODEL_LOADED g) (Globals.DEPS_LOADED g)
    (Globals.SECRET_CACHE g) (Globals.sys_path g) (Globals.tmp g)
    (Globals.printed g).

Definition set_secret_cache (c : option string) (g : Globals.t) : Globals.t :=
  Globals.mk (Globals.xgboost_model g) (Globals.MODEL_LOADED g)
    (Globals.DEPS_LOADED g) c (Globals.sys_path g) (Globals.tmp g)
    (Globals.printed g).

Definition set_sys_path (l : list string) (g : Globals.t) : Globals.t :=
  Globals.mk (Globals.xgboost_model g) (Globals.MODEL_LOADED g)
    (Globals.DEPS_LOADED g) (Globals.SECRET_CACHE g) l (Globals.tmp g)
    (Globals.printed g).

Definition set_tmp (f : gset string) (g : Globals.t) : Globals.t :=
  Globals.mk (Globals.xgboost_model g) (Globals.MODEL_LOADED g)
    (Globals.DEPS_LOADED g) (Globals.SECRET_CACHE g) (Globals.sys_path g) f
    (Globals.printed g).

(** [load_dependencies()] (lines 67-107).  Whatever is raised inside the
    [try] ends in [DEPS_LOADED = False]; what had been written to disk
    before stays there. *)
Definition load_dependencies (s : Surroundings) (g : Globals.t) : Globals.t :=
  if Globals.DEPS_LOADED g then g
  else if bool_decide (extract_path ∈ Globals.tmp g)
          && bool_decide (xgboost_dir ∈ Globals.tmp g) then
    let g1 :=
      if bool_decide (extract_path ∈ Globals.sys_path g) then g
      else set_sys_path (extract_path :: Globals.sys_path g) g in
    say DepsAlreadyLoaded (set_deps_loaded true g1)
  else
    let g1 := say DownloadingDeps g in
    if deps_download_fails s then
      set_deps_loaded false (say DepsLoadingFailed g1)
    else
      let g2 := say ExtractingDeps (set_tmp ({[deps_path]} ∪ Globals.tmp g1) g1) in
      let g3 := set_tmp (extracted s ∪ Globals.tmp g2) g2 in
      if extract_fails s then
        set_deps_loaded false (say DepsLoadingFailed g3)
      else
        let g4 := set_sys_path (extract_path :: Globals.sys_path g3) g3 in
        let g5 := set_tmp (Globals.tmp g4 ∖ {[deps_path]}) g4 in
        say DepsLoaded (set_deps_loaded true g5).

(** [load_model()] (lines 110-141). *)
Definition load_model (s : Surroundings) (g : Globals.t) : Globals.t :=
  if Globals.MODEL_LOADED g then g
  else
    let g1 := load_dependencies s g in
    if import_xgboost_fails s then
      set_model_loaded false (say ModelLoadingFailed g1)
    else
      let missing := negb (bool_decide (local_path ∈ Globals.tmp g1)) in
      let g2 := if missing then say DownloadingModel g1 else g1 in
      if missing && model_download_fails s then
        set_model_loaded false (say ModelLoadingFailed g2)
      else
        let g3 := set_tmp ({[local_path]} ∪ Globals.tmp g2) g2 in
        match booster_load s with
        | Some m =>
            say ModelLoaded (set_model_loaded true (set_model (Some m) g3))
        | None =>
            set_model_loaded false
              (say ModelLoadingFailed (set_model (Some (empty_booster s)) g3))
        end.

(** [get_secret()] (lines 142-162); falling off the [try] without a
    [SecretString] returns [None] as well. *)
Definition get_secret (cfg : Config.t) (s : Surroundings) (g : Globals.t)
    : option string * Globals.t :=
  if negb (opt_truthy (Config.SECRET_ARN cfg)) then
    (None, say SecretArnNotConfigured g)
  else if opt_truthy (Globals.SECRET_CACHE g) then (Globals.SECRET_CACHE g, g)
  else
    match secret s with
    | SecretString value => (Some value, set_secret_cache (Some value) g)
    | NoSecretString => (None, g)
    | GetSecretRaises => (None, say FailedToFetchSecret g)
    end.

(** [str.lower()] on the ASCII letters (the only characters that matter
    for the comparison with ['bearer ']). *)
Definition lower_ascii (c : Ascii.ascii) : Ascii.ascii :=
  let n := Ascii.nat_of_ascii c in
  if (65 <=? n)%nat && (n <=? 90)%nat then Ascii.ascii_of_nat (n + 32) else c.

Fixpoint lower (s : string) : string :=
  match s with
  | EmptyString => EmptyString
  | String c rest => String (lower_ascii c) (lower rest)
  end.

(** [s.split(' ')]. *)
Fixpoint split_space (s : string) : list string :=
  match s with
  | EmptyString => [EmptyString]
  | String c rest =>
      if bool_decide (c = " "%char) then EmptyString :: split_space rest
      else match split_space rest with
           | part :: parts => String c part :: parts
           | [] => [String c EmptyString]
           end
  end.

(** [headers.get('authorization', headers.get('Authorization', ''))]. *)
Definition auth_header_of (headers : gmap string string) : string :=
  default (default "" (headers !! "Authorization")) (headers !! "authorization").

(** The condition of line 239, evaluated left to right; [None] stands for
    the [IndexError] of [auth_header.split(' ')[1]]. *)
Definition auth_rejects (auth_header api_key : string) : option bool :=
  if negb (str_truthy auth_header) then Some true
  else if negb (String.prefix "bearer " (lower auth_header)) then Some true
  else match split_space auth_header !! 1%nat with
       | Some token => Some (negb (bool_decide (token = api_key)))
       | None => None
       end.

(** The members of a request body that is a JSON object in which each of
    these members is either missing ([None]) or of its declared JSON type
    (a string, a number for [amount]).  Objects with members of other
    types, which pydantic may coerce or refuse, are outside this model. *)
Record Fields := {
  f_transaction_id : option string;
  f_user_id : option string;
  f_amount : option Q;
  f_merchant : option string;
  f_location : option string;
  f_device_id : option string
}.

(** The request body: [Unreadable] when [json.loads] raises or the
    document is not an object, so that building the payload raises. *)
Inductive RequestBody :=
| Unreadable
| Readable (fields : Fields).

(** [str] with [min_length=1]. *)
Definition required_str (o : option string) : option string :=
  match o with
  | Some s => if str_truthy s then Some s else None
  | None => None
  end.

(** [float] with [gt=0] and the validator [amount_must_be_positive]. *)
Definition positive_amount (o : option Q) : option Q :=
  match o with
  | Some a => if Qle_bool a (inject_Z 0) then None else Some a
  | None => None
  end.

(** The construction of [TransactionPayload] from the body (lines 24-37,
    255); [None] when it raises. *)
Definition validate (b : RequestBody) : option Payload.t :=
  match b with
  | Unreadable => None
  | Readable f =>
      transaction_id ← required_str (f_transaction_id f);
      user_id ← required_str (f_user_id f);
      amount ← positive_amount (f_amount f);
      merchant ← required_str (f_merchant f);
      Some (Payload.mk transaction_id user_id amount merchant
              (default "unknown" (f_location f)) (f_device_id f))
  end.

Record Event := {
  headers : gmap string string;
  body : RequestBody
}.

Inductive HttpResponse :=
| Unauthorized401
| BadRequest400
| Answer (r : Response)
(** An exception that leaves the handler. *)
| Unhandled.

(** The configuration and the model handle the pipeline sees. *)
Definition env_of (cfg : Config.t) (g : Globals.t) : Env :=
  {| GRAPH_TABLE := Config.GRAPH_TABLE cfg;
     MODEL_LOADED := Globals.MODEL_LOADED g;
     xgboost_model := Globals.xgboost_model g;
     py_hash := Config.py_hash cfg |}.

(** [lambda_handler(event, context)] (lines 221-505), cold start,
    authentication and validation included. *)
Definition lambda_handler (cfg : Config.t) (s : Surroundings)
    (inv : Invocation) (ev : Event)
    : Globals.t * World → HttpResponse * (Globals.t * World) :=
  λ '(g, w),
    let g1 := if Globals.MODEL_LOADED g then g else load_model s g in
    let '(api_key, g2) := get_secret cfg s g1 in
    let verdict :=
      if opt_truthy api_key then
        auth_rejects (auth_header_of (headers ev)) (default "" api_key)
      else Some false in
    match verdict with
    | None => (Unhandled, (g2, w))
    | Some true => (Unauthorized401, (say AuthenticationFailed g2, w))
    | Some false =>
        match validate (body ev) with
        | None => (BadRequest400, (g2, w))
        | Some payload =>
            let '(r, w') := decide_transaction (env_of cfg g2) inv payload w in
            (Answer r, (g2, w'))
        end
    end.

(** Successive invocations in one container. *)
Fixpoint serve (cfg : Config.t)
    (calls : list (Surroundings * Invocation * Event))
    (st : Globals.t * World) : list HttpResponse * (Globals.t * World) :=
  match calls with
  | [] => ([], st)
  | (s, inv, ev) :: rest =>
      let '(r, st1) := lambda_handler cfg s inv ev st in
      let '(rs, st2) := serve cfg rest st1 in
      (r :: rs, st2)
  end.

End Api.

(** ** Vocabulary for the statements *)

(** The row of [user], read as DynamoDB expressions read it. *)
Definition stored (w : World) (user : string) : Item.t :=
  default Item.empty (state_table w !! user).

Definition stored_counter (w : World) (user : string) : Z :=
  default 0 (Item.velocity_counter (stored w user)).

(** The request repeats the transaction id recorded for its user. *)
Definition is_replay (w : World) (p : Payload.t) : Prop :=
  Item.last_transaction_id (stored w (Payload.user_id p))
  = Some (Payload.transaction_id p).

(** The row left by a successful velocity update for [p]. *)
Definition counted (inv : Invocation) (p : Payload.t) (w : World) : Item.t :=
  apply_velocity_update (stored w (Payload.user_id p)) (Payload.location p)
    (now inv + 60) (Payload.transaction_id p) "PROCESSING".

Definition after_velocity (inv : Invocation) (p : Payload.t) (w : World) : World :=
  set_state_table (<[Payload.user_id p := counted inv p w]> (state_table w)) w.

(** Same tables, possibly more log lines. *)
Definition same_tables (w w' : World) : Prop :=
  state_table w' = state_table w ∧ graph_table w' = graph_table w
  ∧ shadow_queue w' = shadow_queue w.

(** The users linked to a device in the graph table. *)
Definition linked (device : string) (g : gmap (string * string) Edge.t)
    : gset string :=
  set_map (λ k : string * string, k.2) (dom (rows_of_device device g)).

(** The model backend cannot produce a score for this feature row. *)
Definition backend_down (env : Env) (x : list Q) : Prop :=
  MODEL_LOADED env = false
  ∨ xgboost_model env = None
  ∨ ∃ m, xgboost_model env = Some m ∧ m x = None.

Definition in_range (n : Number) : Prop :=
  (inject_Z 0 <= to_Q n)%Q ∧ (to_Q n <= inject_Z 100)%Q.

Definition replay_body (w : World) (p : Payload.t) : Body.t :=
  Body.mk (default "UNKNOWN" (Item.last_decision (stored w (Payload.user_id p))))
    (Payload.transaction_id p)
    (PyFloat (default (inject_Z 0)
                (Item.last_risk_score (stored w (Payload.user_id p)))))
    ["IDEMPOTENT_REPLAY"] 0 None true.

Definition fresh_body (env : Env) (p : Payload.t) (vc : Z) (it : bool)
    (risk : Number) (ring : bool * Z) : Body.t :=
  let reasons := decision_reasons (bool_decide (vc > 5)) it risk ring.1 ring.2 in
  Body.mk (decision_of reasons) (Payload.transaction_id p) (round2 risk)
    reasons vc (Some (MODEL_LOADED env)) false.

(** ** Sample inputs *)

Module Sample.
(** No graph faults, no model: the heuristic fallback scores. *)
Definition env : Env :=
  {| GRAPH_TABLE := Some "sherlock_graph"; MODEL_LOADED := false;
     xgboost_model := None; py_hash := λ _, 0 |}.

(** A loaded model that always answers 0.25. *)
Definition env_model : Env :=
  {| GRAPH_TABLE := Some "sherlock_graph"; MODEL_LOADED := true;
     xgboost_model := Some (λ _, Some (1 # 4)%Q); py_hash := λ _, 0 |}.

Definition tx (user tid loc : string) (device : option string) : Payload.t :=
  Payload.mk tid user (inject_Z 50) "Apple Store" loc device.

(** The same as [calm], except that the finalize write fails. *)
Definition finalize_down (t : Z) : Invocation :=
  {| now := t; velocity_update_fails := false; get_item_fails := false;
     graph_put_fails := false; graph_query_fails := false;
     update_decision_fails := true; send_message_fails := false |}.

(** A user whose first transaction was decided. *)
Definition decided : World :=
  mkWorld {[ "u1" := Item.mk (Some 1) (Some "London") (Some 60) (Some "t1")
                       (Some "ALLOW") (Some (inject_Z 55)) ]} ∅ [] [].

(** The answer to the first transaction of a new user. *)
Definition first_body : Body.t :=
  Body.mk "ALLOW" "t1" (PyInt 55) [] 1 (Some false) false.

(** Eleven distinct transactions of one user. *)
Definition eleven : list (Invocation * Payload.t) :=
  map (λ t, (calm 0, tx "u1" t "London" None))
    ["t1"; "t2"; "t3"; "t4"; "t5"; "t6"; "t7"; "t8"; "t9"; "t10"; "t11"].

(** A shadow message on which champion and challenger agree. *)
Definition agreeing : Shadow.SqsRecord :=
  {| Shadow.body :=
       Some (Shadow.JObj
               [("transaction", Shadow.JObj [("user_id", Shadow.JStr "u1")]);
                ("champion_decision", Shadow.JStr "ALLOW");
                ("champion_risk_score", Shadow.JNum (PyInt 55))]);
     Shadow.shadow_draw := inject_Z 10 |}.

(** The same message, the challenger drawing a score above 75. *)
Definition conflicting : Shadow.SqsRecord :=
  {| Shadow.body := Shadow.body agreeing; Shadow.shadow_draw := inject_Z 90 |}.


(** Four users on one device. *)
Definition ring : list (Invocation * Payload.t) :=
  map (λ u, (calm 0, tx u "t" "London" (Some "device_666")))
    ["ring_user_1"; "ring_user_2"; "ring_user_3"; "ring_user_4"].
End Sample.


(** ** Vocabulary for the further properties *)

(** A row as the handler leaves it. *)
Definition row_wf (r : Item.t) : Prop :=
  (∃ c, Item.velocity_counter r = Some c ∧ 1 ≤ c)
  ∧ is_Some (Item.last_location r)
  ∧ is_Some (Item.ttl_window r)
  ∧ is_Some (Item.last_transaction_id r)
  ∧ (Item.last_decision r = Some "PROCESSING"
     ∨ Item.last_decision r = Some "ALLOW"
     ∨ Item.last_decision r = Some "BLOCK").

Definition table_wf (w : World) : Prop :=
  ∀ u r, state_table w !! u = Some r → row_wf r.

(** The message the champion publishes for a fresh decision. *)
Definition shadow_message (inv : Invocation) (b : Body.t) : ShadowMsg :=
  {| champion_decision := Body.status b;
     champion_risk_score := Body.risk_score b; sm_timestamp := now inv |}.

(** The same invocation with another outcome for [send_message]. *)
Definition with_send (fails : bool) (inv : Invocation) : Invocation :=
  {| now := now inv; velocity_update_fails := velocity_update_fails inv;
     get_item_fails := get_item_fails inv;
     graph_put_fails := graph_put_fails inv;
     graph_query_fails := graph_query_fails inv;
     update_decision_fails := update_decision_fails inv;
     send_message_fails := fails |}.

(** [json.dumps(shadow_payload)] as the evaluator decodes it.
    [transaction] is the request body as the caller sent it (line 450):
    a JSON object, since [TransactionPayload( **body)] accepted it. *)
Definition encode_shadow (transaction : list (string * Shadow.Json))
    (m : ShadowMsg) : Shadow.Json :=
  Shadow.JObj
    [("transaction", Shadow.JObj transaction);
     ("champion_decision", Shadow.JStr (champion_decision m));
     ("champion_risk_score", Shadow.JNum (champion_risk_score m));
     ("timestamp", Shadow.JNum (PyInt (sm_timestamp m)))].

(** The globals are consistent: a loaded model is present, and loaded
    dependencies are on [sys.path]. *)
Definition globals_wf (g : Globals.t) : Prop :=
  (Globals.MODEL_LOADED g = true → is_Some (Globals.xgboost_model g))
  ∧ (Globals.DEPS_LOADED g = true → Api.extract_path ∈ Globals.sys_path g).

(** A string without the space character. *)
Definition spaceless (s : string) : Prop :=
  Api.split_space s = [s].

Module Demo.
Definition cfg : Config.t :=
  Config.mk (Some "arn:aws:secretsmanager:sherlock") (Some "sherlock_graph")
    (λ _, 0).

(** S3 and Secrets Manager all unreachable. *)
Definition outage : Surroundings :=
  {| deps_download_fails := true; extract_fails := true; extracted := ∅;
     import_xgboost_fails := true; model_download_fails := true;
     booster_load := None; empty_booster := λ _, None;
     secret := GetSecretRaises |}.

(** Everything reachable; the secret is [sherlock_secure]. *)
Definition healthy : Surroundings :=
  {| deps_download_fails := false; extract_fails := false;
     extracted := {[Api.extract_path; Api.xgboost_dir]};
     import_xgboost_fails := false; model_download_fails := false;
     booster_load := Some (λ _, Some (1 # 4)%Q); empty_booster := λ _, None;
     secret := SecretString "sherlock_secure" |}.

Definition fields (user tid : string) (amount : Q) : Api.Fields :=
  {| Api.f_transaction_id := Some tid; Api.f_user_id := Some user;
     Api.f_amount := Some amount; Api.f_merchant := Some "Apple Store";
     Api.f_location := None; Api.f_device_id := None |}.

Definition event (authorization : string) (user tid : string) (amount : Q)
    : Api.Event :=
  {| Api.headers := {[ "authorization" := authorization ]};
     Api.body := Api.Readable (fields user tid amount) |}.

(** A container that has the secret cached and the model loaded. *)
Definition warm : Globals.t :=
  Globals.mk (Some (λ _, Some (1 # 4)%Q)) true true (Some "sherlock_secure")
    [Api.extract_path] {[Api.extract_path; Api.xgboost_dir; Api.local_path]} [].

(** A user with five counted transactions. *)
Definition busy : World :=
  mkWorld {[ "u1" := Item.mk (Some 5) (Some "London") (Some 60) (Some "t5")
                       (Some "ALLOW") (Some (inject_Z 75)) ]} ∅ [] [].
End Demo.

(** * Properties *)

#[local] Set Warnings "-clear-no-such-hyp".

(** ** Numbers *)

Lemma round_half_even_lower (q : Q) (n : Z) :
  (inject_Z n <= q)%Q → n ≤ round_half_even q.
Proof.
  intros Hq. unfold round_half_even.
  assert (n ≤ Qfloor q).
  { rewrite <- (Qfloor_Z n). by apply Qfloor_resp_le. }
  destruct (Qcompare _ _); [destruct (Z.even _) | |]; lia.
Qed.

Lemma round_half_even_upper (q : Q) (n : Z) :
  (q <= inject_Z n)%Q → round_half_even q ≤ n.
Proof.
  intros Hq. unfold round_half_even.
  assert (Hf : Qfloor q ≤ n).
  { rewrite <- (Qfloor_Z n). by apply Qfloor_resp_le. }
  destruct (Z.eq_dec (Qfloor q) n) as [Heq | Hne].
  - assert (Hlt : (q - inject_Z (Qfloor q) < 1 # 2)%Q).
    { rewrite Heq. destruct q as [a b].
      unfold Qle, Qlt in *. simpl in *. lia. }
    rewrite (proj1 (Qlt_alt _ _) Hlt). lia.
  - destruct (Qcompare _ _); [destruct (Z.even _) | |]; lia.
Qed.

Lemma round2_in_range (n : Number) : in_range n → in_range (round2 n).
Proof.
  destruct n as [z | q]; [done |].
  intros [Hlo Hhi]. simpl in *. unfold in_range. simpl.
  assert (0 ≤ round_half_even (q * inject_Z 100)).
  { apply round_half_even_lower.
    destruct q as [a b]. unfold Qle in *. simpl in *. lia. }
  assert (round_half_even (q * inject_Z 100) ≤ 10000).
  { apply round_half_even_upper.
    destruct q as [a b]. unfold Qle in *. simpl in *. lia. }
  unfold Qle. simpl. lia.
Qed.

Lemma num_gt_spec (n : Number) (k : Z) :
  num_gt n k = true ↔ (inject_Z k < to_Q n)%Q.
Proof.
  unfold num_gt. rewrite negb_true_iff.
  destruct (Qle_bool (to_Q n) (inject_Z k)) eqn:E.
  - apply Qle_bool_iff in E. split; [done |].
    intros Hlt. by apply Qlt_not_le in Hlt.
  - split; [intros _ | done]. apply Qnot_le_lt. intros Hle.
    apply Qle_bool_iff in Hle. congruence.
Qed.

Lemma num_gt_int (z k : Z) : num_gt (PyInt z) k = bool_decide (k < z).
Proof.
  apply eq_true_iff_eq. rewrite num_gt_spec, bool_decide_eq_true. simpl.
  by rewrite <- Zlt_Qlt.
Qed.

(** ** Decision logic *)

Lemma decision_reasons_elem hv it risk ring n (x : string) :
  x ∈ decision_reasons hv it risk ring n ↔
    (x = "HIGH_VELOCITY" ∧ hv = true)
    ∨ (x = "IMPOSSIBLE_TRAVEL" ∧ it = true)
    ∨ (x = "HIGH_RISK_SCORE" ∧ num_gt risk 80 = true)
    ∨ (x = "FRAUD_RING_DETECTED_USERS_" +:+ pretty n ∧ ring = true).
Proof.
  unfold decision_reasons. rewrite !elem_of_app.
  destruct hv, it, (num_gt risk 80), ring;
    rewrite ?list_elem_of_singleton, ?elem_of_nil; naive_solver.
Qed.

Lemma decision_of_block (rs : list string) : decision_of rs = "BLOCK" ↔ rs ≠ [].
Proof. destruct rs; simpl; split; congruence. Qed.

Lemma decision_of_allow (rs : list string) : decision_of rs = "ALLOW" ↔ rs = [].
Proof. destruct rs; simpl; split; congruence. Qed.

Lemma travel_flag_same_location (p : Payload.t) (vc : Z) :
  travel_flag (Payload.location p) p vc = false.
Proof. unfold travel_flag. by rewrite bool_decide_eq_true_2. Qed.

(** ** The stages of the pipeline *)

Lemma condition_holds_false (old : Item.t) (tid : string) :
  condition_holds old tid = false ↔ Item.last_transaction_id old = Some tid.
Proof.
  unfold condition_holds. destruct (Item.last_transaction_id old) as [t |].
  - rewrite negb_false_iff, bool_decide_eq_true. split; congruence.
  - split; discriminate.
Qed.

Lemma condition_holds_true (w : World) (p : Payload.t) :
  ¬ is_replay w p →
  condition_holds (stored w (Payload.user_id p)) (Payload.transaction_id p) = true.
Proof.
  intros Hn. apply not_false_iff_true. by rewrite condition_holds_false.
Qed.

Lemma same_tables_refl (w : World) : same_tables w w.
Proof. by unfold same_tables. Qed.

Lemma same_tables_trans (w1 w2 w3 : World) :
  same_tables w1 w2 → same_tables w2 w3 → same_tables w1 w3.
Proof. unfold same_tables. intros (-> & -> & ->) (-> & -> & ->). done. Qed.

Lemma same_tables_log (w : World) (l : list LogEvent) :
  same_tables w (mkWorld (state_table w) (graph_table w) (shadow_queue w) l).
Proof. by unfold same_tables. Qed.

#[local] Hint Resolve same_tables_refl same_tables_log : core.

(** The scorer returns a number, whatever the backend does, and touches
    nothing but the log. *)
Lemma ai_inference_returns env p vc it (w : World) :
  ∃ risk w', ai_inference env p vc it w = (Returned risk, w') ∧ same_tables w w'.
Proof.
  unfold ai_inference, model_predict, try_except, bind, ret, raise.
  destruct (MODEL_LOADED env), (xgboost_model env) as [m |];
    try destruct (m _); simpl; eauto.
Qed.

Lemma ai_inference_fallback env p vc it (w : World) :
  backend_down env (features env p vc it) →
  ∃ w', ai_inference env p vc it w
        = (Returned (PyInt (heuristic_score vc it)), w')
        ∧ same_tables w w'.
Proof.
  unfold ai_inference, model_predict, try_except, bind, ret, raise.
  intros [-> | [-> | (m & -> & Hm)]].
  - eauto.
  - destruct (MODEL_LOADED env); eauto.
  - destruct (MODEL_LOADED env); rewrite ?Hm; simpl; eauto.
Qed.

Lemma ai_inference_model env p vc it (w : World) m pr :
  MODEL_LOADED env = true → xgboost_model env = Some m →
  m (features env p vc it) = Some pr →
  ai_inference env p vc it w = (Returned (PyFloat (pr * inject_Z 100)), w).
Proof.
  unfold ai_inference, model_predict, try_except, bind, ret.
  intros -> -> Hm. by rewrite Hm.
Qed.

(** The graph step never raises and leaves the state table alone. *)
Lemma graph_analysis_returns env inv p (w : World) :
  ∃ ring w', graph_analysis env inv p w = (Returned ring, w')
             ∧ state_table w' = state_table w
             ∧ shadow_queue w' = shadow_queue w.
Proof.
  unfold graph_analysis, record_device_usage, check_fraud_ring,
    graph_put_item, graph_query_count, try_except, bind, ret, print.
  destruct (Payload.device_id p) as [d |]; simpl; [| eauto].
  destruct (str_truthy d); simpl; [| eauto].
  destruct (opt_truthy (GRAPH_TABLE env)); simpl; [| eauto].
  destruct (graph_put_fails inv), (graph_query_fails inv); simpl;
    try case_bool_decide; simpl; eauto.
Qed.

Lemma velocity_check_fresh inv p (w : World) :
  velocity_update_fails inv = false → ¬ is_replay w p →
  velocity_and_idempotency_check inv p (now inv + 60) w
  = (Returned (stored_counter w (Payload.user_id p) + 1, Payload.location p),
     after_velocity inv p w).
Proof.
  intros Hf Hn.
  unfold velocity_and_idempotency_check, update_item_velocity, bind, ret.
  rewrite Hf. fold (stored w (Payload.user_id p)).
  by rewrite condition_holds_true.
Qed.

Lemma velocity_check_replay inv p (w : World) :
  velocity_update_fails inv = false → is_replay w p →
  velocity_and_idempotency_check inv p (now inv + 60) w
  = (Raised ConditionalCheckFailedException, w).
Proof.
  intros Hf Hr.
  unfold velocity_and_idempotency_check, update_item_velocity, bind, ret.
  rewrite Hf. fold (stored w (Payload.user_id p)).
  apply condition_holds_false in Hr. by rewrite Hr.
Qed.

Lemma velocity_check_fault inv p (w : World) :
  velocity_update_fails inv = true →
  velocity_and_idempotency_check inv p (now inv + 60) w
  = (Raised ClientError_other, w).
Proof.
  intros Hf.
  unfold velocity_and_idempotency_check, update_item_velocity, bind, ret.
  by rewrite Hf.
Qed.

(** What [score_and_decide] does, stage by stage. *)
Lemma score_and_decide_run env inv p vc ll (w : World) :
  ∃ ring risk w1 w2,
    graph_analysis env inv p w = (Returned ring, w1)
    ∧ ai_inference env p vc (travel_flag ll p vc) w1 = (Returned risk, w2)
    ∧ state_table w2 = state_table w
    ∧ let reasons :=
        decision_reasons (bool_decide (vc > 5)) (travel_flag ll p vc) risk
          ring.1 ring.2 in
      (update_decision_fails inv = true →
         score_and_decide env inv p vc ll w = (Raised ClientError_other, w2))
      ∧ (update_decision_fails inv = false →
         ∃ w', score_and_decide env inv p vc ll w
               = (Returned (Response200
                    (Body.mk (decision_of reasons) (Payload.transaction_id p)
                       (round2 risk) reasons vc (Some (MODEL_LOADED env)) false)),
                  w')
               ∧ state_table w'
                 = <[Payload.user_id p :=
                       apply_decision_update (stored w (Payload.user_id p))
                         (decision_of reasons) (round2 risk)]> (state_table w)).
Proof.
  destruct (graph_analysis_returns env inv p w) as (ring & w1 & Hg & Hs1 & _).
  destruct (ai_inference_returns env p vc (travel_flag ll p vc) w1)
    as (risk & w2 & Ha & Hs2 & _).
  exists ring, risk, w1, w2. split_and!; [done | done | congruence |].
  cbv zeta. split.
  - intros Hf. unfold score_and_decide, bind. rewrite Hg, Ha.
    unfold update_item_decision. by rewrite Hf.
  - intros Hf. unfold score_and_decide, bind. rewrite Hg, Ha.
    unfold update_item_decision, audit_logging, shadow_dispatch,
      sqs_send_message, try_except, raise, print, ret. rewrite Hf. simpl.
    unfold stored. rewrite <- Hs1, <- Hs2.
    destruct (send_message_fails inv); simpl; eauto.
Qed.

(** ** The handler, case by case *)

Lemma is_replay_dec (w : World) (p : Payload.t) : is_replay w p ∨ ¬ is_replay w p.
Proof. unfold is_replay. destruct (decide (Item.last_transaction_id
  (stored w (Payload.user_id p)) = Some (Payload.transaction_id p))); auto. Qed.

Lemma handler_replay env inv p (w : World) :
  velocity_update_fails inv = false → get_item_fails inv = false →
  is_replay w p →
  lambda_handler env inv p w
  = (Response200 (replay_body w p),
     mkWorld (state_table w) (graph_table w) (shadow_queue w)
       (log w ++ [LogIdempotentReplay (Payload.transaction_id p)])).
Proof.
  intros Hv Hg Hr. unfold lambda_handler, pipeline, try_except, bind.
  rewrite (velocity_check_replay inv p w Hv Hr).
  unfold idempotent_replay, get_item, bind, print, ret. simpl.
  by rewrite Hg.
Qed.

Lemma handler_replay_get_fault env inv p (w : World) :
  velocity_update_fails inv = false → get_item_fails inv = true →
  is_replay w p →
  ∃ w', lambda_handler env inv p w = (Response500 ClientError_other, w').
Proof.
  intros Hv Hg Hr. unfold lambda_handler, pipeline, try_except, bind.
  rewrite (velocity_check_replay inv p w Hv Hr).
  unfold idempotent_replay, get_item, bind, print, ret. simpl.
  rewrite Hg. eauto.
Qed.

Lemma handler_velocity_fault env inv p (w : World) :
  velocity_update_fails inv = true →
  ∃ w', lambda_handler env inv p w = (Response500 ClientError_other, w').
Proof.
  intros Hv. unfold lambda_handler, pipeline, try_except, bind.
  rewrite (velocity_check_fault inv p w Hv). unfold raise. eauto.
Qed.

Lemma handler_fresh env inv p (w : World) :
  velocity_update_fails inv = false → ¬ is_replay w p →
  let vc := stored_counter w (Payload.user_id p) + 1 in
  ∃ ring risk w1 w2,
    graph_analysis env inv p (after_velocity inv p w) = (Returned ring, w1)
    ∧ ai_inference env p vc false w1 = (Returned risk, w2)
    ∧ (update_decision_fails inv = true →
       ∃ w', lambda_handler env inv p w = (Response500 ClientError_other, w')
             ∧ state_table w' = state_table (after_velocity inv p w)
             ∧ LogError ClientError_other ∈ log w')
    ∧ (update_decision_fails inv = false →
       ∃ w', lambda_handler env inv p w
             = (Response200 (fresh_body env p vc false risk ring), w')
             ∧ state_table w'
               = <[Payload.user_id p :=
                     apply_decision_update (counted inv p w)
                       (Body.status (fresh_body env p vc false risk ring))
                       (round2 risk)]> (state_table (after_velocity inv p w))).
Proof.
  intros Hv Hn vc.
  destruct (score_and_decide_run env inv p vc (Payload.location p)
              (after_velocity inv p w))
    as (ring & risk & w1 & w2 & Hg & Ha & Hs & Hbad & Hok).
  rewrite travel_flag_same_location in *.
  exists ring, risk, w1, w2. split_and!; [done | done | |].
  - intros Hf. specialize (Hbad Hf).
    unfold lambda_handler, pipeline, try_except, bind.
    rewrite (velocity_check_fresh inv p w Hv Hn). unfold ret at 1. simpl.
    fold vc. rewrite Hbad. eexists. split_and!; [done | done |].
    simpl. set_solver.
  - intros Hf. destruct (Hok Hf) as (w' & Hrun & Hst).
    unfold lambda_handler, pipeline, try_except, bind.
    rewrite (velocity_check_fresh inv p w Hv Hn). unfold ret at 1. simpl.
    fold vc. rewrite Hrun. exists w'. split; [done |].
    rewrite Hst. unfold stored, after_velocity. simpl.
    by rewrite lookup_insert_eq.
Qed.

(** Every 200 response is either a replay body or a fresh decision. *)
Lemma handler_200_inv env inv p (w w' : World) (b : Body.t) :
  lambda_handler env inv p w = (Response200 b, w') →
  (is_replay w p ∧ b = replay_body w p ∧ state_table w' = state_table w)
  ∨ (¬ is_replay w p ∧
     ∃ ring risk w1 w2,
       graph_analysis env inv p (after_velocity inv p w) = (Returned ring, w1)
       ∧ ai_inference env p (stored_counter w (Payload.user_id p) + 1) false w1
         = (Returned risk, w2)
       ∧ b = fresh_body env p (stored_counter w (Payload.user_id p) + 1)
               false risk ring).
Proof.
  intros Hrun.
  destruct (velocity_update_fails inv) eqn:Hv.
  { destruct (handler_velocity_fault env inv p w Hv) as (? & E). congruence. }
  destruct (is_replay_dec w p) as [Hr | Hn].
  - left. destruct (get_item_fails inv) eqn:Hg.
    { destruct (handler_replay_get_fault env inv p w Hv Hg Hr) as (? & E).
      congruence. }
    rewrite (handler_replay env inv p w Hv Hg Hr) in Hrun.
    by simplify_eq.
  - right. split; [done |].
    destruct (handler_fresh env inv p w Hv Hn)
      as (ring & risk & w1 & w2 & Hg & Ha & Hbad & Hok).
    exists ring, risk, w1, w2. split_and!; [done | done |].
    destruct (update_decision_fails inv) eqn:Hf.
    + destruct (Hbad eq_refl) as (? & E & _). congruence.
    + destruct (Hok eq_refl) as (? & E & _). congruence.
Qed.

Lemma travel_reason_absent env p vc risk ring :
  "IMPOSSIBLE_TRAVEL" ∉ Body.reasons (fresh_body env p vc false risk ring).
Proof.
  simpl. rewrite decision_reasons_elem. intros [[? _] | [[_ ?] | [[? _] | [? _]]]];
    simpl in *; discriminate.
Qed.

(** No 200 response ever carries [IMPOSSIBLE_TRAVEL]: the location read
    back from the [ALL_NEW] attributes is the one just written. *)
Lemma impossible_travel_never_reported env inv p (w w' : World) (b : Body.t) :
  lambda_handler env inv p w = (Response200 b, w') →
  "IMPOSSIBLE_TRAVEL" ∉ Body.reasons b.
Proof.
  intros Hrun. apply handler_200_inv in Hrun as [(_ & -> & _) | (_ & Hf)].
  - simpl. set_solver.
  - destruct Hf as (ring & risk & ? & ? & _ & _ & ->).
    apply travel_reason_absent.
Qed.

Lemma ai_inference_cases env p vc it (w w' : World) (risk : Number) :
  ai_inference env p vc it w = (Returned risk, w') →
  (∃ m pr, MODEL_LOADED env = true ∧ xgboost_model env = Some m
           ∧ m (features env p vc it) = Some pr
           ∧ risk = PyFloat (pr * inject_Z 100))
  ∨ (backend_down env (features env p vc it)
     ∧ risk = PyInt (heuristic_score vc it)).
Proof.
  destruct (MODEL_LOADED env) eqn:Hl; [destruct (xgboost_model env) as [m |] eqn:Hm |].
  - destruct (m (features env p vc it)) as [pr |] eqn:Hp.
    + rewrite (ai_inference_model env p vc it w m pr Hl Hm Hp).
      intros [= <- <-]. left. eauto 10.
    + intros Hrun. right.
      assert (Hd : backend_down env (features env p vc it)).
      { right. right. eauto. }
      split; [done |].
      destruct (ai_inference_fallback env p vc it w Hd) as (? & E & _).
      congruence.
  - intros Hrun. right.
    assert (Hd : backend_down env (features env p vc it)) by (right; by left).
    split; [done |].
    destruct (ai_inference_fallback env p vc it w Hd) as (? & E & _). congruence.
  - intros Hrun. right.
    assert (Hd : backend_down env (features env p vc it)) by by left.
    split; [done |].
    destruct (ai_inference_fallback env p vc it w Hd) as (? & E & _). congruence.
Qed.

Lemma scaled_probability_in_range (pr : Q) :
  (0 <= pr <= 1)%Q → in_range (PyFloat (pr * inject_Z 100)).
Proof.
  destruct pr as [a b]. unfold in_range, Qle. simpl. lia.
Qed.

(** * The claims *)

(** ** Replays *)

(** C2.  A request whose [transaction_id] equals the stored
    [last_transaction_id] of its user makes the conditional write fail;
    the response echoes the stored [last_decision] and [last_risk_score],
    reports [velocity_counter] 0, carries the single reason
    [IDEMPOTENT_REPLAY], sets [idempotent], and the state table (hence the
    stored counter) is left as it was. *)
Theorem replay_echoes_stored_decision env inv p (w : World) (r : Item.t) :
  state_table w !! Payload.user_id p = Some r →
  Item.last_transaction_id r = Some (Payload.transaction_id p) →
  velocity_update_fails inv = false → get_item_fails inv = false →
  velocity_and_idempotency_check inv p (now inv + 60) w
    = (Raised ConditionalCheckFailedException, w)
  ∧ ∃ b w',
      lambda_handler env inv p w = (Response200 b, w')
      ∧ (∀ d, Item.last_decision r = Some d → Body.status b = d)
      ∧ (∀ s, Item.last_risk_score r = Some s → Body.risk_score b = PyFloat s)
      ∧ Body.velocity_counter b = 0
      ∧ Body.reasons b = ["IDEMPOTENT_REPLAY"]
      ∧ Body.idempotent b = true
      ∧ state_table w' = state_table w
      ∧ stored_counter w' (Payload.user_id p)
        = stored_counter w (Payload.user_id p).
Proof.
  intros Hrow Htid Hv Hg.
  assert (Hst : stored w (Payload.user_id p) = r) by (unfold stored; by rewrite Hrow).
  assert (Hr : is_replay w p) by (unfold is_replay; by rewrite Hst).
  split; [by apply velocity_check_replay |].
  eexists _, _. split; [by apply handler_replay |].
  unfold replay_body. rewrite Hst. simpl.
  split_and!; try done.
  - by intros d ->.
  - by intros s ->.
Qed.

Lemma replay_echoes_stored_decision_witness :
  ∃ b w',
    lambda_handler Sample.env (calm 5) (Sample.tx "u1" "t1" "London" None)
      Sample.decided = (Response200 b, w')
    ∧ Body.status b = "ALLOW" ∧ Body.risk_score b = PyFloat (inject_Z 55)
    ∧ Body.velocity_counter b = 0.
Proof.
  destruct (replay_echoes_stored_decision Sample.env (calm 5)
              (Sample.tx "u1" "t1" "London" None) Sample.decided
              (Item.mk (Some 1) (Some "London") (Some 60) (Some "t1")
                 (Some "ALLOW") (Some (inject_Z 55))))
    as (_ & b & w' & Hrun & Hd & Hs & Hvc & _);
    [vm_compute; reflexivity | reflexivity | reflexivity | reflexivity |].
  exists b, w'. split_and!; [exact Hrun | | | exact Hvc].
  - apply Hd. reflexivity.
  - apply Hs. reflexivity.
Defined.


(** C10.  A replay of a transaction that was counted but whose finalize
    write failed answers with status ["PROCESSING"]; a replay on a row
    without [last_decision] answers ["UNKNOWN"], and on a row without
    [last_risk_score] it answers score 0. *)
Theorem replay_surfaces_non_decision env inv p (w : World) :
  velocity_update_fails inv = false → get_item_fails inv = false →
  (∀ inv0 w0,
     velocity_update_fails inv0 = false → update_decision_fails inv0 = true →
     ¬ is_replay w0 p →
     (lambda_handler env inv0 p w0).2 = w →
     (lambda_handler env inv0 p w0).1 = Response500 ClientError_other
     ∧ stored_counter w (Payload.user_id p)
       = stored_counter w0 (Payload.user_id p) + 1
     ∧ ∃ b w', lambda_handler env inv p w = (Response200 b, w')
               ∧ Body.status b = "PROCESSING"
               ∧ Body.idempotent b = true
               ∧ Body.reasons b = ["IDEMPOTENT_REPLAY"])
  ∧ (is_replay w p →
     ∃ b w', lambda_handler env inv p w = (Response200 b, w')
             ∧ Body.idempotent b = true
             ∧ (Item.last_decision (stored w (Payload.user_id p)) = None →
                Body.status b = "UNKNOWN")
             ∧ (Item.last_risk_score (stored w (Payload.user_id p)) = None →
                Body.risk_score b = PyFloat (inject_Z 0))).
Proof.
  intros Hv Hg. split.
  - intros inv0 w0 Hv0 Hf0 Hn Hw.
    destruct (handler_fresh env inv0 p w0 Hv0 Hn)
      as (ring & risk & wa & wb & _ & _ & Hbad & _).
    destruct (Hbad Hf0) as (w1 & E & Hst & _).
    rewrite E in Hw. simpl in Hw. subst w1. rewrite E. simpl.
    assert (Hrow : stored w (Payload.user_id p) = counted inv0 p w0).
    { unfold stored at 1. rewrite Hst. unfold after_velocity. simpl.
      by rewrite lookup_insert_eq. }
    assert (Hr : is_replay w p) by (unfold is_replay; by rewrite Hrow).
    split_and!; [done | unfold stored_counter at 1; by rewrite Hrow |].
    eexists _, _. split; [by apply handler_replay |].
    unfold replay_body. rewrite Hrow. done.
  - intros Hr. eexists _, _. split; [by apply handler_replay |].
    unfold replay_body. simpl. split_and!; [done | by intros -> | by intros ->].
Qed.

Lemma replay_surfaces_non_decision_witness :
  ∃ b w',
    lambda_handler Sample.env (calm 9) (Sample.tx "u1" "t1" "London" None)
      (lambda_handler Sample.env (Sample.finalize_down 0)
         (Sample.tx "u1" "t1" "London" None) empty_world).2
    = (Response200 b, w')
    ∧ Body.status b = "PROCESSING".
Proof.
  destruct (replay_surfaces_non_decision Sample.env (calm 9)
              (Sample.tx "u1" "t1" "London" None)
              (lambda_handler Sample.env (Sample.finalize_down 0)
                 (Sample.tx "u1" "t1" "London" None) empty_world).2
              eq_refl eq_refl) as [Hproc _].
  destruct (Hproc (Sample.finalize_down 0) empty_world eq_refl eq_refl)
    as (_ & _ & b & w' & Hrun & Hst & _); [| reflexivity | eauto].
  vm_compute. discriminate.
Defined.

(** ** Finalize *)

(** The outcome of a failing finalize write differs from the decision
    that had been computed: the caller gets a 500. *)
Lemma finalize_failure_changes_response :
  (lambda_handler Sample.env (calm 0)
     (Sample.tx "u1" "t1" "London" None) empty_world).1
  = Response200 (Body.mk "ALLOW" "t1" (PyInt 55) [] 1 (Some false) false)
  ∧ (lambda_handler Sample.env (Sample.finalize_down 0)
       (Sample.tx "u1" "t1" "London" None) empty_world).1
    = Response500 ClientError_other.
Proof. split; vm_compute; reflexivity. Qed.

(** C5, amended.  When the finalize write fails on a counted transaction,
    the exception reaches the outer handler: it is logged, the caller
    receives a 500, and the row keeps the incremented counter and the
    ["PROCESSING"] placeholder. *)
Theorem finalize_failure_gives_500 env inv p (w : World) :
  velocity_update_fails inv = false → ¬ is_replay w p →
  update_decision_fails inv = true →
  ∃ w', lambda_handler env inv p w = (Response500 ClientError_other, w')
        ∧ LogError ClientError_other ∈ log w'
        ∧ stored w' (Payload.user_id p) = counted inv p w
        ∧ stored_counter w' (Payload.user_id p)
          = stored_counter w (Payload.user_id p) + 1
        ∧ Item.last_decision (stored w' (Payload.user_id p)) = Some "PROCESSING".
Proof.
  intros Hv Hn Hf.
  destruct (handler_fresh env inv p w Hv Hn)
    as (ring & risk & wa & wb & _ & _ & Hbad & _).
  destruct (Hbad Hf) as (w' & E & Hst & Hlog).
  assert (Hrow : stored w' (Payload.user_id p) = counted inv p w).
  { unfold stored at 1. rewrite Hst. unfold after_velocity. simpl.
    by rewrite lookup_insert_eq. }
  exists w'. split_and!; try done.
  - unfold stored_counter at 1. by rewrite Hrow.
  - by rewrite Hrow.
Qed.

Lemma finalize_failure_gives_500_witness :
  ∃ w', lambda_handler Sample.env (Sample.finalize_down 0)
          (Sample.tx "u1" "t1" "London" None) empty_world
        = (Response500 ClientError_other, w')
        ∧ stored_counter w' "u1" = 1.
Proof.
  destruct (finalize_failure_gives_500 Sample.env (Sample.finalize_down 0)
              (Sample.tx "u1" "t1" "London" None) empty_world)
    as (w' & Hrun & _ & _ & Hc & _);
    [reflexivity | vm_compute; discriminate | reflexivity |].
  exists w'. split; [exact Hrun | exact Hc].
Defined.

(** ** Impossible travel *)

(** C1, at the failing input.  A user submits [t1] from London and then
    [t2] from Tokyo: the second response has [velocity_counter] 2 and no
    [IMPOSSIBLE_TRAVEL], because the velocity check hands back the
    location it has just written and not the previous one. *)
Theorem travel_not_flagged_at_second_location :
  (lambda_handler Sample.env (calm 0) (Sample.tx "u1" "t1" "London" None)
     empty_world).1
  = Response200 (Body.mk "ALLOW" "t1" (PyInt 55) [] 1 (Some false) false)
  ∧ Item.last_location (stored Sample.decided "u1") = Some "London"
  ∧ velocity_and_idempotency_check (calm 1)
      (Sample.tx "u1" "t2" "Tokyo" None) 61 Sample.decided
    = (Returned (2, "Tokyo"),
       after_velocity (calm 1) (Sample.tx "u1" "t2" "Tokyo" None) Sample.decided)
  ∧ (lambda_handler Sample.env (calm 1) (Sample.tx "u1" "t2" "Tokyo" None)
       Sample.decided).1
    = Response200 (Body.mk "ALLOW" "t2" (PyInt 60) [] 2 (Some false) false).
Proof. split_and!; vm_compute; reflexivity. Qed.

(** With [ALL_OLD] the same update would have handed back the previous
    location. *)
Lemma all_old_returns_previous_location :
  (update_item_velocity (calm 1) ALL_OLD "u1" "Tokyo" 61 "t2" Sample.decided).1
  = Returned (Item.mk (Some 1) (Some "London") (Some 60) (Some "t1")
                (Some "ALLOW") (Some (inject_Z 55))).
Proof. vm_compute. reflexivity. Qed.

(** ** Decision rule *)

(** What the decision rule does deliver.  In every fresh (non-replay)
    200 response the counter is the stored one plus one, the score is the
    one the scorer returned for that counter (rounded), the ring flag and
    the count are the ones the graph step returned, and the reasons are
    [HIGH_VELOCITY], [HIGH_RISK_SCORE] and the ring code, each present
    exactly when its condition holds, in this order; the decision is
    [BLOCK] exactly when the list is not empty. *)
Lemma fresh_reasons_accumulate env inv p (w w' : World) (b : Body.t) :
  lambda_handler env inv p w = (Response200 b, w') →
  Body.idempotent b = false →
  let vc := stored_counter w (Payload.user_id p) + 1 in
  ∃ ring risk_score w1 w2,
    graph_analysis env inv p (after_velocity inv p w) = (Returned ring, w1)
    ∧ ai_inference env p vc false w1 = (Returned risk_score, w2)
    ∧ Body.velocity_counter b = vc
    ∧ Body.risk_score b = round2 risk_score
    ∧ Body.reasons b
      = ((if bool_decide (vc > 5) then ["HIGH_VELOCITY"] else [])
         ++ (if num_gt risk_score 80 then ["HIGH_RISK_SCORE"] else [])
         ++ (if ring.1
             then ["FRAUD_RING_DETECTED_USERS_" +:+ pretty ring.2]
             else []))%list
    ∧ ("HIGH_VELOCITY" ∈ Body.reasons b ↔ vc > 5)
    ∧ ("HIGH_RISK_SCORE" ∈ Body.reasons b
       ↔ (inject_Z 80 < to_Q risk_score)%Q)
    ∧ ("FRAUD_RING_DETECTED_USERS_" +:+ pretty ring.2 ∈ Body.reasons b
       ↔ ring.1 = true)
    ∧ (Body.status b = "BLOCK" ↔ Body.reasons b ≠ [])
    ∧ (Body.status b = "ALLOW" ↔ Body.reasons b = []).
Proof.
  intros Hrun Hfresh vc.
  apply handler_200_inv in Hrun as [(_ & -> & _) | (_ & Hf)]; [done |].
  destruct Hf as (ring & risk & w1 & w2 & Hg & Ha & ->).
  exists ring, risk, w1, w2. fold vc. simpl.
  split_and!; try done.
  - rewrite decision_reasons_elem. split.
    + intros [[_ H] | [[? _] | [[? _] | [? _]]]]; simpl in *; try done.
      by apply bool_decide_eq_true in H.
    + intros H. left. split; [done | by apply bool_decide_eq_true].
  - rewrite decision_reasons_elem, <- num_gt_spec.
    split; [| by right; right; left].
    intros [[? _] | [[? _] | [[_ ?] | [? _]]]]; simpl in *; done.
  - rewrite decision_reasons_elem.
    split; [| by right; right; right].
    intros [[? _] | [[? _] | [[? _] | [_ ?]]]]; simpl in *; done.
  - apply decision_of_block.
  - apply decision_of_allow.
Qed.

(** C4.  The reasons do not accumulate every applicable code: the travel
    code is left out, and with it the decision can come out [ALLOW].
    A user whose only transaction was in London submits a second one from
    Tokyo: lines 388-399, given the flag of a request from another
    location with counter 2, yield [IMPOSSIBLE_TRAVEL] and [BLOCK]; the
    handler answers [ALLOW] with no reason.  A user with five
    transactions, the last in London, submits a sixth from Tokyo: the
    applicable codes are [HIGH_VELOCITY], [IMPOSSIBLE_TRAVEL] and
    [HIGH_RISK_SCORE] (the heuristic score being 100); the handler
    reports [HIGH_VELOCITY] alone, with score 80.  In both cases the flag
    handed to lines 388-399 was computed from the location that the
    velocity update had just written. *)
Theorem travel_code_is_not_accumulated :
  let second := Sample.tx "u1" "t2" "Tokyo" None in
  let sixth := Sample.tx "u1" "t6" "Tokyo" None in
  (Item.last_location (stored Sample.decided "u1") = Some "London"
   ∧ stored_counter Sample.decided "u1" + 1 = 2
   ∧ ¬ is_replay Sample.decided second
   ∧ travel_flag "London" second 2 = true
   ∧ decision_reasons (bool_decide (2 > 5)) true
       (PyInt (heuristic_score 2 true)) false 0
     = ["IMPOSSIBLE_TRAVEL"]
   ∧ decision_of ["IMPOSSIBLE_TRAVEL"] = "BLOCK"
   ∧ (lambda_handler Sample.env (calm 1) second Sample.decided).1
     = Response200 (Body.mk "ALLOW" "t2" (PyInt 60) [] 2 (Some false) false))
  ∧ (Item.last_location (stored Demo.busy "u1") = Some "London"
     ∧ stored_counter Demo.busy "u1" + 1 = 6
     ∧ ¬ is_replay Demo.busy sixth
     ∧ travel_flag "London" sixth 6 = true
     ∧ decision_reasons (bool_decide (6 > 5)) true
         (PyInt (heuristic_score 6 true)) false 0
       = ["HIGH_VELOCITY"; "IMPOSSIBLE_TRAVEL"; "HIGH_RISK_SCORE"]
     ∧ (lambda_handler Sample.env (calm 1) sixth Demo.busy).1
       = Response200
           (Body.mk "BLOCK" "t6" (PyInt 80) ["HIGH_VELOCITY"] 6 (Some false)
              false)).
Proof.
  cbv zeta. split_and!; try (vm_compute; reflexivity); vm_compute; discriminate.
Qed.

(** ** Risk scorer *)

Lemma in_range_int (z : Z) : in_range (PyInt z) ↔ 0 ≤ z ≤ 100.
Proof. unfold in_range. simpl. by rewrite <- !Zle_Qle. Qed.

(** C7.  When the model is not loaded, or absent, or its prediction
    raises, the scoring step returns (it does not raise) and its value is
    exactly [50 + 5 * velocity_counter + 20 * impossible_travel]. *)
Theorem fallback_score_is_heuristic env p (vc : Z) (it : bool) (w : World) :
  backend_down env (features env p vc it) →
  ∃ w', ai_inference env p vc it w
        = (Returned (PyInt (50 + 5 * vc + 20 * (if it then 1 else 0))), w')
        ∧ same_tables w w'.
Proof.
  intros Hd. destruct (ai_inference_fallback env p vc it w Hd) as (w' & E & Ht).
  exists w'. split; [| done]. rewrite E. do 3 f_equal.
  unfold heuristic_score. destruct it; lia.
Qed.

Lemma fallback_score_is_heuristic_witness :
  ∃ w', ai_inference Sample.env (Sample.tx "u1" "t7" "Tokyo" None) 7 true
          empty_world
        = (Returned (PyInt 105), w').
Proof.
  destruct (fallback_score_is_heuristic Sample.env
              (Sample.tx "u1" "t7" "Tokyo" None) 7 true empty_world)
    as (w' & Hrun & _); [left; reflexivity |].
  exists w'. exact Hrun.
Defined.

(** The eleventh transaction of a user, scored by the fallback, carries
    the score 105. *)
Lemma eleventh_score_exceeds_100 :
  ∃ b, last (run Sample.env Sample.eleven empty_world).1 = Some (Response200 b)
       ∧ Body.idempotent b = false
       ∧ Body.risk_score b = PyInt 105
       ∧ ¬ in_range (Body.risk_score b).
Proof.
  eexists. split_and!; [vm_compute; reflexivity | reflexivity | reflexivity |].
  cbn [Body.risk_score]. rewrite in_range_int. lia.
Qed.

(** C6, amended.  In a fresh 200 response whose score came from the model
    (a probability between 0 and 1, times 100) the [risk_score] lies
    between 0 and 100; a score from the heuristic fallback is
    [50 + 5 * velocity_counter + 20 * impossible_travel], which lies in
    that range only while [5 * velocity_counter + 20 * impossible_travel]
    does not exceed 50. *)
Theorem risk_score_range env inv p (w w' : World) (b : Body.t) :
  lambda_handler env inv p w = (Response200 b, w') →
  Body.idempotent b = false →
  (∀ m x pr, xgboost_model env = Some m → m x = Some pr → (0 <= pr <= 1)%Q) →
  let vc := Body.velocity_counter b in
  let it := bool_decide ("IMPOSSIBLE_TRAVEL" ∈ Body.reasons b) in
  (MODEL_LOADED env = true
   ∧ (∃ m pr, xgboost_model env = Some m ∧ m (features env p vc it) = Some pr
              ∧ Body.risk_score b = round2 (PyFloat (pr * inject_Z 100)))
   ∧ in_range (Body.risk_score b))
  ∨ (backend_down env (features env p vc it)
     ∧ Body.risk_score b
       = PyInt (50 + 5 * vc + 20 * (if it then 1 else 0))
     ∧ (in_range (Body.risk_score b)
        ↔ -50 ≤ 5 * vc + 20 * (if it then 1 else 0) ≤ 50)).
Proof.
  intros Hrun Hfresh Hprob vc it.
  apply handler_200_inv in Hrun as [(_ & -> & _) | (_ & Hf)]; [done |].
  destruct Hf as (ring & risk & w1 & w2 & _ & Ha & ->).
  subst vc it. rewrite bool_decide_eq_false_2 by apply travel_reason_absent.
  cbn [fresh_body Body.risk_score Body.velocity_counter].
  apply ai_inference_cases in Ha
    as [(m & pr & Hl & Hm & Hp & ->) | (Hd & ->)].
  - left. split_and!; [done | by eauto |].
    apply round2_in_range, scaled_probability_in_range. eauto.
  - right. unfold heuristic_score. cbn [round2].
    replace (50 + (stored_counter w (Payload.user_id p) + 1) * 5 + 0)
      with (50 + 5 * (stored_counter w (Payload.user_id p) + 1) + 20 * 0) by lia.
    split_and!; [done | done |]. rewrite in_range_int. lia.
Qed.

Lemma risk_score_range_witness :
  in_range (PyFloat (Qmake 2500 100)).
Proof.
  destruct (risk_score_range Sample.env_model (calm 0)
              (Sample.tx "u1" "t1" "London" None) empty_world
              (lambda_handler Sample.env_model (calm 0)
                 (Sample.tx "u1" "t1" "London" None) empty_world).2
              (Body.mk "ALLOW" "t1" (PyFloat (Qmake 2500 100)) [] 1
                 (Some true) false))
    as [(_ & _ & Hr) | (Hd & _)].
  - vm_compute. reflexivity.
  - reflexivity.
  - intros m x pr [= <-] [= <-]. unfold Qle. simpl. lia.
  - exact Hr.
  - destruct Hd as [Hd | [Hd | (m & [= <-] & Hd)]]; discriminate Hd.
Defined.

(** ** Velocity *)

(** One accepted transaction: the response carries the stored counter
    plus one, and the row remembers the counter and the transaction id. *)
Lemma handler_counts env inv p (w : World) :
  velocity_update_fails inv = false → update_decision_fails inv = false →
  ¬ is_replay w p →
  ∃ b w',
    lambda_handler env inv p w = (Response200 b, w')
    ∧ Body.velocity_counter b = stored_counter w (Payload.user_id p) + 1
    ∧ Body.idempotent b = false
    ∧ ("HIGH_VELOCITY" ∈ Body.reasons b ↔ Body.velocity_counter b > 5)
    ∧ stored_counter w' (Payload.user_id p)
      = stored_counter w (Payload.user_id p) + 1
    ∧ Item.last_transaction_id (stored w' (Payload.user_id p))
      = Some (Payload.transaction_id p).
Proof.
  intros Hv Hf Hn.
  destruct (handler_fresh env inv p w Hv Hn)
    as (ring & risk & wa & wb & _ & _ & _ & Hok).
  destruct (Hok Hf) as (w' & Hrun & Hst).
  assert (Hrow : stored w' (Payload.user_id p)
                 = apply_decision_update (counted inv p w)
                     (Body.status (fresh_body env p
                        (stored_counter w (Payload.user_id p) + 1) false risk ring))
                     (round2 risk)).
  { unfold stored. rewrite Hst. by rewrite lookup_insert_eq. }
  eexists _, _. split; [exact Hrun |].
  split_and!; try done.
  - cbn [fresh_body Body.reasons Body.velocity_counter].
    rewrite decision_reasons_elem. split.
    + intros [[_ H] | [[? _] | [[? _] | [? _]]]]; simpl in *; try done.
      by apply bool_decide_eq_true in H.
    + intros H. left. split; [done | by apply bool_decide_eq_true].
  - unfold stored_counter at 1. by rewrite Hrow.
  - by rewrite Hrow.
Qed.

(** C3.  Distinct transaction ids submitted one after the other for one
    user, none of them the id already stored and no store failure: the
    i-th response (from 0) carries the initial counter plus [i + 1], so
    each counter is the previous one plus one, and [HIGH_VELOCITY] is
    among the reasons exactly when that counter exceeds 5; for a user
    with no history this is from submission number 6 on. *)
Theorem velocity_counter_increments env (u : string)
    (reqs : list (Invocation * Payload.t)) (w : World) :
  Forall (λ r, Payload.user_id r.2 = u
               ∧ velocity_update_fails r.1 = false
               ∧ update_decision_fails r.1 = false) reqs →
  NoDup (map (λ r, Payload.transaction_id r.2) reqs) →
  (∀ t, Item.last_transaction_id (stored w u) = Some t →
        t ∉ map (λ r : Invocation * Payload.t, Payload.transaction_id r.2) reqs) →
  length (run env reqs w).1 = length reqs
  ∧ ∀ (i : nat) (r : Response),
      (run env reqs w).1 !! i = Some r →
      ∃ b, r = Response200 b
           ∧ Body.idempotent b = false
           ∧ Body.velocity_counter b = stored_counter w u + Z.of_nat i + 1
           ∧ ("HIGH_VELOCITY" ∈ Body.reasons b ↔ Body.velocity_counter b > 5)
           ∧ (stored_counter w u = 0 →
              ("HIGH_VELOCITY" ∈ Body.reasons b ↔ (6 ≤ i + 1)%nat)).
Proof.
  revert w. induction reqs as [| [inv p] rest IH]; intros w Hall Hnd Hlast.
  { split; [done |]. intros i r. simpl. by rewrite lookup_nil. }
  apply Forall_cons in Hall as [(Hu & Hv & Hf) Hall]. simpl in Hu, Hv, Hf.
  simpl in Hnd. apply NoDup_cons in Hnd as [Hnotin Hnd].
  assert (Hn : ¬ is_replay w p).
  { unfold is_replay. rewrite Hu. intros Hr.
    apply (Hlast _ Hr). simpl. set_solver. }
  destruct (handler_counts env inv p w Hv Hf Hn)
    as (b & w1 & Hrun & Hvc & Hfresh & Hhv & Hc1 & Ht1).
  rewrite Hu in Hvc, Hc1, Ht1.
  destruct (IH w1 Hall Hnd) as [Hlen Hrest].
  { intros t Ht. rewrite Ht1 in Ht. by injection Ht as <-. }
  simpl. rewrite Hrun.
  destruct (run env rest w1) as [rs w2] eqn:Hrs. simpl in *.
  split; [by rewrite Hlen |].
  intros [| j] r Hr; simpl in Hr.
  - injection Hr as <-. exists b. split_and!; try done; [lia |].
    intros H0. rewrite Hhv, Hvc, H0. lia.
  - destruct (Hrest j r Hr) as (b' & -> & Hf' & Hvc' & Hhv' & _).
    exists b'. split_and!; try done; [lia |].
    intros H0. rewrite Hhv', Hvc', Hc1, H0. lia.
Qed.

Lemma velocity_counter_increments_witness :
  ∃ b, (run Sample.env Sample.eleven empty_world).1 !! 5%nat
       = Some (Response200 b)
       ∧ Body.velocity_counter b = 6
       ∧ "HIGH_VELOCITY" ∈ Body.reasons b.
Proof.
  destruct (velocity_counter_increments Sample.env "u1" Sample.eleven
              empty_world) as [_ Hrun].
  - unfold Sample.eleven. simpl. repeat constructor.
  - unfold Sample.eleven. simpl.
    repeat (apply NoDup_cons; split;
            [rewrite ?elem_of_cons, elem_of_nil; intros H;
             repeat destruct H as [H | H]; discriminate || exact H |]).
    apply NoDup_nil. exact I.
  - intros t Ht. vm_compute in Ht. discriminate Ht.
  - destruct (Hrun 5%nat
                (Response200 (Body.mk "BLOCK" "t6" (PyInt 80) ["HIGH_VELOCITY"]
                                6 (Some false) false)))
      as (b & Hb & _ & Hvc & Hhv & _); [vm_compute; reflexivity |].
    exists b. split_and!.
    + vm_compute. rewrite Hb. reflexivity.
    + exact Hvc.
    + apply Hhv. rewrite Hvc. reflexivity.
Defined.

(** ** Device graph *)

Lemma elem_of_linked (d u : string) (g : gmap (string * string) Edge.t) :
  u ∈ linked d g ↔ is_Some (g !! (d, u)).
Proof.
  unfold linked, rows_of_device. rewrite elem_of_map. split.
  - intros ([d' u'] & -> & Hk). apply elem_of_dom in Hk as [e He].
    apply map_lookup_filter_Some in He as [He Hd]. simpl in *. subst d'. eauto.
  - intros [e He]. exists (d, u). split; [done |].
    apply elem_of_dom. exists e. by apply map_lookup_filter_Some.
Qed.

Lemma rows_of_device_lookup (d : string) (k : string * string)
    (g : gmap (string * string) Edge.t) :
  k.1 = d → rows_of_device d g !! k = g !! k.
Proof.
  intros Hk. unfold rows_of_device. rewrite map_lookup_filter.
  destruct (g !! k) as [e |]; simpl; [| done].
  by rewrite option_guard_True.
Qed.

(** With primary key [(device_id, user_id)], the rows of a device are as
    many as the users linked to it. *)
Lemma size_linked (d : string) (g : gmap (string * string) Edge.t) :
  size (linked d g) = size (rows_of_device d g).
Proof.
  induction g as [| [d' u'] e g Hfresh IH] using map_ind.
  - unfold linked, rows_of_device. rewrite map_filter_empty, dom_empty_L.
    by rewrite set_map_empty.
  - destruct (decide (d' = d)) as [-> | Hne].
    + assert (Hl : linked d (<[(d, u') := e]> g) = {[u']} ∪ linked d g).
      { apply set_eq. intros u. rewrite elem_of_union, elem_of_singleton,
          !elem_of_linked.
        destruct (decide (u = u')) as [-> | Hu].
        - rewrite lookup_insert_eq. naive_solver.
        - rewrite lookup_insert_ne by congruence. naive_solver. }
      rewrite Hl, size_union, size_singleton.
      * unfold rows_of_device at 1.
        rewrite map_filter_insert_True by done.
        fold (rows_of_device d g).
        rewrite map_size_insert_None; [by rewrite IH |].
        by rewrite rows_of_device_lookup.
      * intros u Hu Hin. apply elem_of_singleton in Hu as ->.
        apply elem_of_linked in Hin as [? Hin]. congruence.
    + assert (Hl : linked d (<[(d', u') := e]> g) = linked d g).
      { apply set_eq. intros u. rewrite !elem_of_linked.
        by rewrite lookup_insert_ne by congruence. }
      rewrite Hl, IH. unfold rows_of_device.
      rewrite map_filter_insert_False by (simpl; congruence).
      by rewrite delete_id.
Qed.

Lemma linked_insert (d u : string) (e : Edge.t)
    (g : gmap (string * string) Edge.t) :
  linked d (<[(d, u) := e]> g) = {[u]} ∪ linked d g.
Proof.
  apply set_eq. intros u'.
  rewrite elem_of_union, elem_of_singleton, !elem_of_linked.
  destruct (decide (u' = u)) as [-> | Hu].
  - rewrite lookup_insert_eq. naive_solver.
  - rewrite lookup_insert_ne by congruence. naive_solver.
Qed.

(** C8.  For a transaction that carries a device id (graph table
    configured, graph calls succeeding), the edge from the device to the
    user is written first and the ring check counts the users linked to
    the device afterwards, the current one included; the ring flag is set
    exactly when that count exceeds 3.  A fourth distinct user therefore
    gets count 4 and a ring, a third distinct user count 3 and none. *)
Theorem ring_check_counts_current_edge env inv p (w : World) (d : string) :
  Payload.device_id p = Some d → d ≠ "" →
  opt_truthy (GRAPH_TABLE env) = true →
  graph_put_fails inv = false → graph_query_fails inv = false →
  let g' := <[(d, Payload.user_id p) :=
                Edge.mk (now inv) (now inv + 86400 * 30)]> (graph_table w) in
  let count := Z.of_nat (size (linked d g')) in
  ∃ w', graph_analysis env inv p w
        = (Returned (bool_decide (count > 3), count), w')
        ∧ graph_table w' = g'
        ∧ Payload.user_id p ∈ linked d g'
        ∧ (Payload.user_id p ∉ linked d (graph_table w) →
           count = Z.of_nat (size (linked d (graph_table w))) + 1)
        ∧ (Payload.user_id p ∈ linked d (graph_table w) →
           count = Z.of_nat (size (linked d (graph_table w)))).
Proof.
  intros Hd Hne Hg Hput Hq g' count.
  assert (Ht : str_truthy d = true) by (by destruct d).
  assert (Hrun : ∃ w', graph_analysis env inv p w
                       = (Returned (bool_decide (count > 3), count), w')
                       ∧ graph_table w' = g').
  { unfold graph_analysis, record_device_usage, check_fraud_ring,
      graph_put_item, graph_query_count, try_except, bind, ret, print.
    rewrite Hd. simpl. rewrite Ht, Hg. simpl. rewrite Hput, Hq. simpl.
    fold g'. rewrite <- size_linked. fold count.
    case_bool_decide; simpl; eauto. }
  destruct Hrun as (w' & Hrun & Hg').
  exists w'. split_and!; [done | done | | |].
  - subst g'. rewrite linked_insert. set_solver.
  - intros Hnew. subst count g'. rewrite linked_insert, size_union, size_singleton.
    + lia.
    + set_solver.
  - intros Hold. subst count g'. rewrite linked_insert.
    by replace ({[Payload.user_id p]} ∪ linked d (graph_table w))
      with (linked d (graph_table w)) by set_solver.
Qed.

Lemma ring_check_counts_current_edge_witness :
  (run Sample.env Sample.ring empty_world).1
  = [Response200 (Body.mk "ALLOW" "t" (PyInt 55) [] 1 (Some false) false);
     Response200 (Body.mk "ALLOW" "t" (PyInt 55) [] 1 (Some false) false);
     Response200 (Body.mk "ALLOW" "t" (PyInt 55) [] 1 (Some false) false);
     Response200 (Body.mk "BLOCK" "t" (PyInt 55)
                    ["FRAUD_RING_DETECTED_USERS_4"] 1 (Some false) false)]
  ∧ ∃ w', graph_analysis Sample.env (calm 0)
            (Sample.tx "ring_user_4" "t" "London" (Some "device_666"))
            (run Sample.env (take 3 Sample.ring) empty_world).2
          = (Returned (true, 4), w').
Proof.
  split; [vm_compute; reflexivity |].
  destruct (ring_check_counts_current_edge Sample.env (calm 0)
              (Sample.tx "ring_user_4" "t" "London" (Some "device_666"))
              (run Sample.env (take 3 Sample.ring) empty_world).2 "device_666")
    as (w' & Hrun & _); [reflexivity | discriminate | reflexivity..|].
  exists w'. rewrite Hrun. f_equal; vm_compute; reflexivity.
Defined.

(** ** Shadow evaluator *)

Lemma count_conflicts_filter (records : list Shadow.SqsRecord) (acc : Z) :
  Shadow.count_conflicts records acc
  = acc + Z.of_nat (length (filter (λ r, Shadow.is_conflict r = true) records)).
Proof.
  revert acc. induction records as [| r rest IH]; intros acc; simpl.
  - lia.
  - rewrite IH. rewrite filter_cons.
    destruct (Shadow.is_conflict r) eqn:E.
    + rewrite decide_True by done. simpl. lia.
    + rewrite decide_False by done. lia.
Qed.

Lemma binary64_comp (q q' : Q) : (q == q')%Q → binary64 q = binary64 q'.
Proof. intros H. unfold binary64. by rewrite (Qred_complete _ _ H). Qed.

(** Rounding to binary64 does not cross an integer below [2 ^ 53]. *)
Lemma binary64_pos_bounds (q : Q) (B : Z) :
  (inject_Z 0 <= q)%Q → (q <= inject_Z B)%Q → 0 < B → Z.log2 B ≤ 52 →
  (inject_Z 0 <= binary64_pos q)%Q ∧ (binary64_pos q <= inject_Z B)%Q.
Proof.
  intros Hlo Hhi HB Hlog. unfold binary64_pos.
  set (P := 2 ^ 1074).
  assert (HP : 0 < P) by (by apply Z.pow_pos_nonneg).
  assert (HPq : (inject_Z 0 < inject_Z P)%Q) by (by rewrite <- Zlt_Qlt).
  set (n := Qfloor (q * inject_Z P)).
  assert (Hn0 : 0 ≤ n).
  { rewrite <- (Qfloor_Z 0). apply Qfloor_resp_le.
    apply Qmult_le_0_compat; [done |]. by apply Qlt_le_weak. }
  assert (HnB : n ≤ B * P).
  { rewrite <- (Qfloor_Z (B * P)). apply Qfloor_resp_le.
    rewrite inject_Z_mult. apply Qmult_le_compat_r; [done |].
    by apply Qlt_le_weak. }
  set (e := Z.max 0 (Z.log2 n - 52)).
  assert (He : 0 ≤ e ≤ 1074).
  { assert (Z.log2 n ≤ Z.log2 (B * P)) by (by apply Z.log2_le_mono).
    assert (Z.log2 (B * P) = 1074 + Z.log2 B)
      by (subst P; by apply Z.log2_mul_pow2).
    subst e. lia. }
  set (K := 2 ^ e).
  assert (HK : 0 < K) by (apply Z.pow_pos_nonneg; lia).
  assert (HKq : (inject_Z 0 < inject_Z K)%Q) by (by rewrite <- Zlt_Qlt).
  set (U := B * 2 ^ (1074 - e)).
  assert (HUK : U * K = B * P).
  { subst U K P. rewrite <- Z.mul_assoc, <- Z.pow_add_r by lia.
    do 2 f_equal. lia. }
  set (x := (q * inject_Z P / inject_Z K)%Q).
  assert (Hx0 : (inject_Z 0 <= x)%Q).
  { apply Qle_shift_div_l; [done |].
    assert (E : (inject_Z 0 * inject_Z K == inject_Z 0)%Q) by ring. rewrite E. clear E.
    apply Qmult_le_0_compat; [done |]. by apply Qlt_le_weak. }
  assert (HxU : (x <= inject_Z U)%Q).
  { apply Qle_shift_div_r; [done |].
    rewrite <- inject_Z_mult, HUK, inject_Z_mult.
    apply Qmult_le_compat_r; [done |]. by apply Qlt_le_weak. }
  pose proof (round_half_even_lower x 0 Hx0) as Hm0.
  pose proof (round_half_even_upper x U HxU) as HmU.
  set (m := round_half_even x) in *.
  split.
  - apply Qle_shift_div_l; [done |].
    assert (E : (inject_Z 0 * inject_Z P == inject_Z 0)%Q) by ring. rewrite E. clear E.
    rewrite <- Zle_Qle. nia.
  - apply Qle_shift_div_r; [done |].
    rewrite <- inject_Z_mult, <- Zle_Qle. nia.
Qed.

Lemma binary64_bounds (q : Q) (B : Z) :
  (inject_Z 0 <= q)%Q → (q <= inject_Z B)%Q → 0 < B → Z.log2 B ≤ 52 →
  (inject_Z 0 <= binary64 q)%Q ∧ (binary64 q <= inject_Z B)%Q.
Proof.
  intros Hlo Hhi HB Hlog. unfold binary64.
  assert (Hr : (Qred q == q)%Q) by apply Qred_correct.
  assert (Hlo' : (inject_Z 0 <= Qred q)%Q) by (by rewrite Hr).
  assert (Hhi' : (Qred q <= inject_Z B)%Q) by (by rewrite Hr).
  rewrite (proj2 (Qle_bool_iff _ _) Hlo').
  by apply binary64_pos_bounds.
Qed.

Lemma ratio_bounds (a n : Z) :
  0 ≤ a ≤ n → 0 < n →
  (0 <= inject_Z a / inject_Z n <= 1)%Q.
Proof.
  intros Ha Hn.
  assert (Hq : (inject_Z 0 < inject_Z n)%Q) by (by rewrite <- Zlt_Qlt).
  split.
  - apply Qle_shift_div_l; [done |].
    assert (E : (0 * inject_Z n == inject_Z 0)%Q) by ring. rewrite E. clear E.
    rewrite <- Zle_Qle. lia.
  - apply Qle_shift_div_r; [done |].
    assert (E : (1 * inject_Z n == inject_Z n)%Q) by ring. rewrite E. clear E.
    rewrite <- Zle_Qle. lia.
Qed.

(** The float computation of line 65 stays between 0 and 100. *)
Lemma percentage_in_range (a n : Z) :
  0 ≤ a ≤ n → 0 < n →
  in_range (PyFloat (binary64 (binary64 (inject_Z a / inject_Z n)
                               * inject_Z 100))).
Proof.
  intros Ha Hn.
  destruct (ratio_bounds a n Ha Hn) as [H0 H1].
  destruct (binary64_bounds (inject_Z a / inject_Z n) 1 H0 H1)
    as [Hb0 Hb1]; [lia | done |].
  destruct (scaled_probability_in_range
              (binary64 (inject_Z a / inject_Z n)) (conj Hb0 Hb1)) as [Hs0 Hs1].
  simpl in Hs0, Hs1.
  destruct (binary64_bounds _ 100 Hs0 Hs1) as [? ?]; [lia | done |].
  by split.
Qed.

(** One batch with a single agreeing message: the reported rate is 100,
    not [(processed - conflicts) / processed], which is 1. *)
Lemma agreement_rate_is_a_percentage :
  let s := Shadow.lambda_handler [Sample.agreeing] in
  Shadow.processed s = 1
  ∧ Shadow.conflicts s = 0
  ∧ (to_Q (Shadow.agreement_rate s) == inject_Z 100)%Q
  ∧ ¬ (to_Q (Shadow.agreement_rate s)
       == inject_Z (Shadow.processed s - Shadow.conflicts s)
          / inject_Z (Shadow.processed s))%Q.
Proof.
  cbv zeta. split_and!; [reflexivity | reflexivity | |].
  - vm_compute. reflexivity.
  - vm_compute. discriminate.
Qed.

(** C9, amended.  For every batch, a message that parses is a conflict
    exactly when its champion decision differs from the shadow decision
    (the scores play no part; a decision that is not a string always
    differs); the summary reports the batch size as [processed], the
    number of conflicts as [conflicts], and as agreement rate the
    percentage [(processed - conflicts) / processed * 100], computed in
    binary64 floating point and rounded to two decimals, which lies
    between 0 and 100; an empty batch reports 0. *)
Theorem shadow_summary (records : list Shadow.SqsRecord) :
  let s := Shadow.lambda_handler records in
  Shadow.processed s = Z.of_nat (length records)
  ∧ Shadow.conflicts s
    = Z.of_nat (length (filter (λ r, Shadow.is_conflict r = true) records))
  ∧ (∀ r v, r ∈ records →
       Shadow.parse_message r = Some v →
       (Shadow.is_conflict r = true
        ↔ v ≠ Shadow.JStr (Shadow.shadow_decision_of (Shadow.shadow_draw r))))
  ∧ 0 ≤ Shadow.conflicts s ≤ Shadow.processed s
  ∧ (records = [] → Shadow.agreement_rate s = PyInt 0)
  ∧ (records ≠ [] →
     Shadow.agreement_rate s
     = round2 (PyFloat
                 (binary64
                    (binary64 (inject_Z (Shadow.processed s - Shadow.conflicts s)
                               / inject_Z (Shadow.processed s))
                     * inject_Z 100)))
     ∧ in_range (Shadow.agreement_rate s)).
Proof.
  cbv zeta. unfold Shadow.lambda_handler.
  cbn [Shadow.processed Shadow.conflicts Shadow.agreement_rate].
  rewrite count_conflicts_filter, Z.add_0_l.
  pose proof (length_filter (λ r, Shadow.is_conflict r = true) records) as Hle.
  split_and!; [done | done | | lia | lia | by intros -> |].
  - intros r v _ Hp. unfold Shadow.is_conflict. rewrite Hp.
    destruct v as [| b | n | s | l | fields]; simpl; try (split; done).
    rewrite negb_true_iff, bool_decide_eq_false. split; congruence.
  - intros Hne. destruct records as [| r rest]; [done |].
    rewrite bool_decide_eq_true_2 by (simpl; lia).
    split; [done |]. apply round2_in_range, percentage_in_range; simpl in *; lia.
Qed.

Lemma shadow_summary_witness :
  Shadow.conflicts (Shadow.lambda_handler [Sample.agreeing; Sample.conflicting])
  = 1
  ∧ (Shadow.is_conflict Sample.conflicting = true
     ↔ Shadow.JStr "ALLOW"
       ≠ Shadow.JStr (Shadow.shadow_decision_of (inject_Z 90))).
Proof.
  destruct (shadow_summary [Sample.agreeing; Sample.conflicting])
    as (_ & Hc & Hd & _).
  split; [rewrite Hc; reflexivity |].
  apply (Hd Sample.conflicting (Shadow.JStr "ALLOW")); [| reflexivity].
  apply list_elem_of_In. right. left. reflexivity.
Defined.

(** The batch of 160 messages with 67 conflicts reports 58.13: the float
    product is just above 58.125. *)
Lemma rate_follows_float_arithmetic :
  round2 (PyFloat (binary64 (binary64 (inject_Z (160 - 67) / inject_Z 160)
                             * inject_Z 100)))
  = PyFloat (Qmake 5813 100).
Proof. vm_compute. reflexivity. Qed.

(** * Further properties *)

(** ** The pipeline and its tables *)

(** The complete effect of a fresh invocation. *)
Lemma handler_fresh_world env inv p (w : World) :
  velocity_update_fails inv = false → ¬ is_replay w p →
  let vc := stored_counter w (Payload.user_id p) + 1 in
  ∃ ring risk w1 w2 w',
    graph_analysis env inv p (after_velocity inv p w) = (Returned ring, w1)
    ∧ ai_inference env p vc false w1 = (Returned risk, w2)
    ∧ lambda_handler env inv p w
      = (if update_decision_fails inv then Response500 ClientError_other
         else Response200 (fresh_body env p vc false risk ring), w')
    ∧ state_table w'
      = (if update_decision_fails inv
         then state_table (after_velocity inv p w)
         else <[Payload.user_id p :=
                  apply_decision_update (counted inv p w)
                    (Body.status (fresh_body env p vc false risk ring))
                    (round2 risk)]> (state_table (after_velocity inv p w)))
    ∧ graph_table w' = graph_table w1
    ∧ shadow_queue w'
      = (if update_decision_fails inv || send_message_fails inv
         then shadow_queue w
         else (shadow_queue w
               ++ [shadow_message inv (fresh_body env p vc false risk ring)])%list).
Proof.
  intros Hv Hn vc.
  destruct (graph_analysis_returns env inv p (after_velocity inv p w))
    as (ring & w1 & Hg & Hs1 & Hq1).
  destruct (ai_inference_returns env p vc false w1)
    as (risk & w2 & Ha & Hs2 & Hg2 & Hq2).
  exists ring, risk, w1, w2.
  unfold lambda_handler, pipeline, try_except, bind.
  rewrite (velocity_check_fresh inv p w Hv Hn). unfold ret at 1. simpl.
  fold vc. unfold score_and_decide, bind.
  rewrite travel_flag_same_location, Hg, Ha.
  unfold update_item_decision, audit_logging, shadow_dispatch,
    sqs_send_message, try_except, raise, print, ret.
  destruct (update_decision_fails inv); simpl.
  - eexists. split_and!; try done; simpl.
    + by rewrite Hs2, Hs1.
    + by rewrite Hq2, Hq1.
  - destruct (send_message_fails inv); simpl;
      eexists; (split_and!; try done); simpl;
      rewrite ?Hs2, ?Hs1, ?Hq2, ?Hq1; try done.
    all: unfold after_velocity; simpl; by rewrite lookup_insert_eq.
Qed.

Lemma handler_velocity_fault_world env inv p (w : World) :
  velocity_update_fails inv = true →
  lambda_handler env inv p w
  = (Response500 ClientError_other,
     mkWorld (state_table w) (graph_table w) (shadow_queue w)
       (log w ++ [LogError ClientError_other])%list).
Proof.
  intros Hv. unfold lambda_handler, pipeline, try_except, bind.
  by rewrite (velocity_check_fault inv p w Hv).
Qed.

Lemma handler_replay_world env inv p (w : World) :
  velocity_update_fails inv = false → is_replay w p →
  ∃ r w', lambda_handler env inv p w = (r, w') ∧ same_tables w w'
          ∧ r = (if get_item_fails inv then Response500 ClientError_other
                 else Response200 (replay_body w p)).
Proof.
  intros Hv Hr. unfold lambda_handler, pipeline, try_except, bind.
  rewrite (velocity_check_replay inv p w Hv Hr).
  unfold idempotent_replay, get_item, bind, print, ret. simpl.
  destruct (get_item_fails inv); simpl; eexists _, _; split_and!; done.
Qed.

(** X1.  An invocation changes no row of the state table but the one of
    its own user, whatever fails on the way. *)
Theorem handler_touches_only_its_user env inv p (w : World) (u : string) :
  u ≠ Payload.user_id p →
  state_table (lambda_handler env inv p w).2 !! u = state_table w !! u.
Proof.
  intros Hu. destruct (velocity_update_fails inv) eqn:Hv.
  { by rewrite handler_velocity_fault_world. }
  destruct (is_replay_dec w p) as [Hr | Hn].
  - destruct (handler_replay_world env inv p w Hv Hr)
      as (r & w' & -> & (Hs & _) & _). simpl. by rewrite Hs.
  - destruct (handler_fresh_world env inv p w Hv Hn)
      as (ring & risk & w1 & w2 & w' & _ & _ & -> & Hst & _).
    simpl. rewrite Hst. unfold after_velocity.
    destruct (update_decision_fails inv); simpl;
      by rewrite ?lookup_insert_ne by done.
Qed.

Lemma handler_touches_only_its_user_witness :
  state_table
    (lambda_handler Sample.env (calm 7) (Sample.tx "u2" "t9" "Paris" None)
       Sample.decided).2 !! "u1"
  = state_table Sample.decided !! "u1".
Proof.
  apply (handler_touches_only_its_user Sample.env (calm 7)
           (Sample.tx "u2" "t9" "Paris" None) Sample.decided "u1").
  discriminate.
Defined.

(** X2.  Once the velocity update has gone through, the transaction is
    counted: the stored counter is one higher and the transaction id is
    recorded, whether or not the graph, the finalize write or the shadow
    dispatch fail afterwards.  A replay or a failed velocity update leaves
    the counter as it was. *)
Theorem counter_accounting env inv p (w : World) :
  let w' := (lambda_handler env inv p w).2 in
  (velocity_update_fails inv = false → ¬ is_replay w p →
   stored_counter w' (Payload.user_id p)
   = stored_counter w (Payload.user_id p) + 1
   ∧ Item.last_transaction_id (stored w' (Payload.user_id p))
     = Some (Payload.transaction_id p))
  ∧ (velocity_update_fails inv = true ∨ is_replay w p →
     stored w' (Payload.user_id p) = stored w (Payload.user_id p)).
Proof.
  cbv zeta. split.
  - intros Hv Hn.
    destruct (handler_fresh_world env inv p w Hv Hn)
      as (ring & risk & w1 & w2 & w' & _ & _ & -> & Hst & _).
    simpl. unfold stored_counter, stored. rewrite Hst. unfold after_velocity.
    destruct (update_decision_fails inv); simpl; by rewrite lookup_insert_eq.
  - intros [Hv | Hr].
    + by rewrite handler_velocity_fault_world.
    + destruct (velocity_update_fails inv) eqn:Hv.
      { by rewrite handler_velocity_fault_world. }
      destruct (handler_replay_world env inv p w Hv Hr)
        as (r & w' & -> & (Hst & _) & _).
      simpl. unfold stored. by rewrite Hst.
Qed.

Lemma counter_accounting_witness :
  stored_counter
    (lambda_handler Sample.env (Sample.finalize_down 3)
       (Sample.tx "u1" "t2" "Paris" (Some "device_666")) Sample.decided).2 "u1"
  = 2.
Proof.
  destruct (counter_accounting Sample.env (Sample.finalize_down 3)
              (Sample.tx "u1" "t2" "Paris" (Some "device_666"))
              Sample.decided) as [Hfresh _].
  destruct Hfresh as [Hc _]; [reflexivity | vm_compute; discriminate |].
  exact Hc.
Defined.

(** X3.  A replay has no side effect on the tables: no row is written, no
    device edge is recorded and nothing is published to the shadow queue,
    even when the request carries a device id. *)
Theorem replay_has_no_side_effects env inv p (w : World) :
  velocity_update_fails inv = false → is_replay w p →
  same_tables w (lambda_handler env inv p w).2
  ∧ (lambda_handler env inv p w).1
    = (if get_item_fails inv then Response500 ClientError_other
       else Response200 (replay_body w p)).
Proof.
  intros Hv Hr.
  destruct (handler_replay_world env inv p w Hv Hr) as (r & w' & -> & Ht & ->).
  done.
Qed.

Lemma replay_has_no_side_effects_witness :
  same_tables Sample.decided
    (lambda_handler Sample.env (calm 5)
       (Sample.tx "u1" "t1" "London" (Some "device_666")) Sample.decided).2.
Proof.
  apply (replay_has_no_side_effects Sample.env (calm 5)
           (Sample.tx "u1" "t1" "London" (Some "device_666")) Sample.decided);
    reflexivity.
Defined.

Lemma graph_analysis_with_send env b inv p (w : World) :
  graph_analysis env (with_send b inv) p w = graph_analysis env inv p w.
Proof. reflexivity. Qed.

(** X4.  Whether publishing to the shadow queue fails or not makes no
    difference to the response, to the state table or to the graph table. *)
Theorem shadow_publish_never_affects_response env inv p (w : World) (b : bool) :
  (lambda_handler env (with_send b inv) p w).1 = (lambda_handler env inv p w).1
  ∧ state_table (lambda_handler env (with_send b inv) p w).2
    = state_table (lambda_handler env inv p w).2
  ∧ graph_table (lambda_handler env (with_send b inv) p w).2
    = graph_table (lambda_handler env inv p w).2.
Proof.
  destruct (velocity_update_fails inv) eqn:Hv.
  { by rewrite !handler_velocity_fault_world. }
  destruct (is_replay_dec w p) as [Hr | Hn].
  - destruct (handler_replay_world env inv p w Hv Hr)
      as (r & w' & -> & (Hs & Hg & _) & ->).
    destruct (handler_replay_world env (with_send b inv) p w Hv Hr)
      as (r2 & w2' & -> & (Hs2 & Hg2 & _) & ->).
    simpl. by rewrite Hs, Hs2, Hg, Hg2.
  - destruct (handler_fresh_world env inv p w Hv Hn)
      as (ring & risk & w1 & w2 & w' & Hga & Hai & -> & Hst & Hgt & _).
    destruct (handler_fresh_world env (with_send b inv) p w Hv Hn)
      as (ring' & risk' & w1' & w2' & w'' & Hga' & Hai' & -> & Hst' & Hgt' & _).
    rewrite graph_analysis_with_send in Hga'.
    change (after_velocity (with_send b inv) p w)
      with (after_velocity inv p w) in *.
    rewrite Hga in Hga'. injection Hga' as <- <-.
    rewrite Hai in Hai'. injection Hai' as <- <-.
    simpl. rewrite Hst, Hst', Hgt, Hgt'. done.
Qed.

(** X5.  A fresh decision whose finalize write and publication both
    succeed adds exactly one message to the shadow queue, and that message
    carries the decision and the score of the response and the time of the
    invocation; when the publication fails, the queue is left as it was. *)
Theorem fresh_decision_is_published env inv p (w w' : World) (b : Body.t) :
  lambda_handler env inv p w = (Response200 b, w') →
  Body.idempotent b = false →
  shadow_queue w'
  = (if send_message_fails inv then shadow_queue w
     else (shadow_queue w ++ [shadow_message inv b])%list).
Proof.
  intros Hrun Hfresh.
  destruct (velocity_update_fails inv) eqn:Hv.
  { rewrite handler_velocity_fault_world in Hrun by done. done. }
  destruct (is_replay_dec w p) as [Hr | Hn].
  { destruct (handler_replay_world env inv p w Hv Hr) as (r & w2 & E & _ & ->).
    rewrite E in Hrun. destruct (get_item_fails inv); by simplify_eq. }
  destruct (handler_fresh_world env inv p w Hv Hn)
    as (ring & risk & w1 & w2 & w3 & _ & _ & E & _ & _ & Hq).
  rewrite E in Hrun.
  destruct (update_decision_fails inv); [done |].
  simpl in Hq. by simplify_eq.
Qed.

Lemma fresh_decision_is_published_witness :
  shadow_queue
    (lambda_handler Sample.env (calm 0) (Sample.tx "u1" "t1" "London" None)
       empty_world).2
  = [shadow_message (calm 0) Sample.first_body].
Proof.
  apply (fresh_decision_is_published Sample.env (calm 0)
           (Sample.tx "u1" "t1" "London" None) empty_world
           (lambda_handler Sample.env (calm 0)
              (Sample.tx "u1" "t1" "London" None) empty_world).2
           Sample.first_body); vm_compute; reflexivity.
Defined.

(** ** Device graph: absent device, failing calls *)

Lemma graph_analysis_skipped env inv p (w : World) :
  opt_truthy (Payload.device_id p) = false
  ∨ opt_truthy (GRAPH_TABLE env) = false →
  graph_analysis env inv p w = (Returned (false, 0), w).
Proof.
  unfold graph_analysis, record_device_usage, check_fraud_ring, bind, ret.
  destruct (Payload.device_id p) as [d |]; simpl; [| done].
  destruct (str_truthy d); simpl; [| done].
  intros [? | ->]; done.
Qed.

(** X6.  Without a device id (absent or empty), or without a configured
    graph table, the graph step does nothing at all: no write, no query,
    no log line, and no ring. *)
Theorem graph_step_is_skipped env inv p (w : World) :
  opt_truthy (Payload.device_id p) = false
  ∨ opt_truthy (GRAPH_TABLE env) = false →
  graph_analysis env inv p w = (Returned (false, 0), w).
Proof. apply graph_analysis_skipped. Qed.

Lemma graph_step_is_skipped_witness :
  graph_analysis Sample.env (calm 0) (Sample.tx "u1" "t1" "London" (Some ""))
    Sample.decided
  = (Returned (false, 0), Sample.decided).
Proof.
  apply (graph_step_is_skipped Sample.env (calm 0)
           (Sample.tx "u1" "t1" "London" (Some "")) Sample.decided).
  left. reflexivity.
Defined.

(** X7.  Failures of the graph table degrade the ring check and nothing
    else.  When the count query fails the answer is "no ring, 0 users",
    the failure is logged, and the edge is still recorded if its write
    went through.  When only the write fails, the ring check counts the
    users already linked to the device, so the current user is not counted
    unless it was linked before. *)
Theorem graph_failures_degrade_ring_check env inv p (w : World) (d : string) :
  Payload.device_id p = Some d → d ≠ "" →
  opt_truthy (GRAPH_TABLE env) = true →
  (graph_query_fails inv = true →
   ∃ w', graph_analysis env inv p w = (Returned (false, 0), w')
         ∧ LogGraphAnalysisFailed ∈ log w'
         ∧ state_table w' = state_table w
         ∧ graph_table w'
           = (if graph_put_fails inv then graph_table w
              else <[(d, Payload.user_id p) :=
                       Edge.mk (now inv) (now inv + 86400 * 30)]>
                     (graph_table w)))
  ∧ (graph_query_fails inv = false → graph_put_fails inv = true →
     let count := Z.of_nat (size (linked d (graph_table w))) in
     ∃ w', graph_analysis env inv p w
           = (Returned (bool_decide (count > 3), count), w')
           ∧ LogGraphUpdateFailed ∈ log w'
           ∧ graph_table w' = graph_table w).
Proof.
  intros Hd Hne Hg.
  assert (Ht : str_truthy d = true) by (by destruct d).
  split.
  - intros Hq.
    unfold graph_analysis, record_device_usage, check_fraud_ring,
      graph_put_item, graph_query_count, try_except, bind, ret, print.
    rewrite Hd. simpl. rewrite Ht, Hg. simpl. rewrite Hq.
    destruct (graph_put_fails inv); simpl;
      eexists; (split_and!; [done | | done | done]); simpl; set_solver.
  - intros Hq Hput count.
    unfold graph_analysis, record_device_usage, check_fraud_ring,
      graph_put_item, graph_query_count, try_except, bind, ret, print.
    rewrite Hd. simpl. rewrite Ht, Hg. simpl. rewrite Hq, Hput. simpl.
    rewrite <- size_linked. fold count.
    case_bool_decide; simpl;
      eexists; (split_and!; [done | | done]); simpl; set_solver.
Qed.

Lemma graph_failures_degrade_ring_check_witness :
  ∃ w', graph_analysis Sample.env
          {| now := 0; velocity_update_fails := false; get_item_fails := false;
             graph_put_fails := false; graph_query_fails := true;
             update_decision_fails := false; send_message_fails := false |}
          (Sample.tx "ring_user_4" "t" "London" (Some "device_666"))
          (run Sample.env (take 3 Sample.ring) empty_world).2
        = (Returned (false, 0), w').
Proof.
  destruct (graph_failures_degrade_ring_check Sample.env
              {| now := 0; velocity_update_fails := false;
                 get_item_fails := false; graph_put_fails := false;
                 graph_query_fails := true; update_decision_fails := false;
                 send_message_fails := false |}
              (Sample.tx "ring_user_4" "t" "London" (Some "device_666"))
              (run Sample.env (take 3 Sample.ring) empty_world).2 "device_666")
    as [Hq _]; [reflexivity | discriminate | reflexivity |].
  destruct Hq as (w' & Hrun & _); [reflexivity |].
  exists w'. exact Hrun.
Defined.

(** ** Decisions *)

Lemma fresh_inv env inv p (w w' : World) (b : Body.t) :
  lambda_handler env inv p w = (Response200 b, w') →
  Body.idempotent b = false →
  ¬ is_replay w p
  ∧ velocity_update_fails inv = false
  ∧ update_decision_fails inv = false
  ∧ ∃ ring risk w1 w2,
      graph_analysis env inv p (after_velocity inv p w) = (Returned ring, w1)
      ∧ ai_inference env p (stored_counter w (Payload.user_id p) + 1) false w1
        = (Returned risk, w2)
      ∧ b = fresh_body env p (stored_counter w (Payload.user_id p) + 1)
              false risk ring
      ∧ state_table w'
        = <[Payload.user_id p :=
              apply_decision_update (counted inv p w) (Body.status b)
                (round2 risk)]> (state_table (after_velocity inv p w)).
Proof.
  intros Hrun Hfresh.
  destruct (velocity_update_fails inv) eqn:Hv.
  { rewrite handler_velocity_fault_world in Hrun by done. done. }
  destruct (is_replay_dec w p) as [Hr | Hn].
  { destruct (handler_replay_world env inv p w Hv Hr) as (r & w2 & E & _ & ->).
    rewrite E in Hrun. destruct (get_item_fails inv); by simplify_eq. }
  destruct (handler_fresh_world env inv p w Hv Hn)
    as (ring & risk & w1 & w2 & w3 & Hg & Ha & E & Hst & _).
  rewrite E in Hrun.
  destruct (update_decision_fails inv); [done |].
  simplify_eq. split_and!; try done. eauto 10.
Qed.



Lemma heuristic_decision env inv p (w w' : World) (b : Body.t) :
  lambda_handler env inv p w = (Response200 b, w') →
  Body.idempotent b = false →
  MODEL_LOADED env = false →
  Body.risk_score b = PyInt (50 + 5 * Body.velocity_counter b)
  ∧ Body.model_loaded b = Some false
  ∧ ("HIGH_RISK_SCORE" ∈ Body.reasons b ↔ 7 ≤ Body.velocity_counter b)
  ∧ (opt_truthy (Payload.device_id p) = false →
     (Body.status b = "ALLOW" ↔ Body.velocity_counter b ≤ 5)).
Proof.
  intros Hrun Hfresh Hm.
  destruct (fresh_inv env inv p w w' b Hrun Hfresh)
    as (_ & _ & _ & ring & risk & w1 & w2 & Hg & Ha & -> & _).
  set (vc := stored_counter w (Payload.user_id p) + 1) in *.
  assert (Hd : backend_down env (features env p vc false)) by by left.
  destruct (ai_inference_fallback env p vc false w1 Hd) as (? & E & _).
  rewrite E in Ha. injection Ha as <- <-.
  cbn [fresh_body Body.risk_score Body.velocity_counter Body.reasons
       Body.status Body.model_loaded round2].
  unfold heuristic_score.
  split_and!.
  - f_equal. lia.
  - by rewrite Hm.
  - rewrite decision_reasons_elem, num_gt_int. split.
    + intros [[? _] | [[? _] | [[_ H] | [? _]]]]; simpl in *; try done.
      apply bool_decide_eq_true in H. lia.
    + intros H. right. right. left. split; [done |].
      apply bool_decide_eq_true. lia.
  - intros Hdev. rewrite (graph_analysis_skipped env inv p _ (or_introl Hdev)) in Hg.
    injection Hg as <- <-. rewrite decision_of_allow.
    unfold decision_reasons. rewrite num_gt_int. simpl.
    destruct (bool_decide (vc > 5)) eqn:E1;
      destruct (bool_decide (80 < 50 + vc * 5 + 0)) eqn:E2; simpl;
      try apply bool_decide_eq_true in E1; try apply bool_decide_eq_false in E1;
      try apply bool_decide_eq_true in E2; try apply bool_decide_eq_false in E2;
      split; try done; lia.
Qed.

(** X9.  Without a loaded model every fresh decision is scored
    [50 + 5 * velocity_counter]; [HIGH_RISK_SCORE] is reported from
    counter 7 on, and a transaction without a device id is allowed
    exactly while the counter is at most 5. *)
Theorem decisions_without_model env inv p (w w' : World) (b : Body.t) :
  lambda_handler env inv p w = (Response200 b, w') →
  Body.idempotent b = false →
  MODEL_LOADED env = false →
  Body.risk_score b = PyInt (50 + 5 * Body.velocity_counter b)
  ∧ Body.model_loaded b = Some false
  ∧ ("HIGH_RISK_SCORE" ∈ Body.reasons b ↔ 7 ≤ Body.velocity_counter b)
  ∧ (opt_truthy (Payload.device_id p) = false →
     (Body.status b = "ALLOW" ↔ Body.velocity_counter b ≤ 5)).
Proof. apply heuristic_decision. Qed.

Lemma decisions_without_model_witness :
  Body.risk_score Sample.first_body = PyInt (50 + 5 * 1)
  ∧ (Body.status Sample.first_body = "ALLOW"
     ↔ Body.velocity_counter Sample.first_body ≤ 5).
Proof.
  destruct (decisions_without_model Sample.env (calm 0)
              (Sample.tx "u1" "t1" "London" None) empty_world
              (lambda_handler Sample.env (calm 0)
                 (Sample.tx "u1" "t1" "London" None) empty_world).2
              Sample.first_body)
    as (Hs & _ & _ & Ha); [vm_compute; reflexivity | reflexivity..|].
  split; [exact Hs | apply Ha; reflexivity].
Defined.



(** X12.  When the velocity update itself fails (for another reason than
    the replay condition), the caller gets a 500 and nothing has been
    counted, recorded or published; the error is logged. *)
Theorem velocity_failure_counts_nothing env inv p (w : World) :
  velocity_update_fails inv = true →
  (lambda_handler env inv p w).1 = Response500 ClientError_other
  ∧ same_tables w (lambda_handler env inv p w).2
  ∧ LogError ClientError_other ∈ log (lambda_handler env inv p w).2.
Proof.
  intros Hv. rewrite handler_velocity_fault_world by done.
  split_and!; [done | done |]. simpl. set_solver.
Qed.

Lemma velocity_failure_counts_nothing_witness :
  (lambda_handler Sample.env
     {| now := 0; velocity_update_fails := true; get_item_fails := false;
        graph_put_fails := false; graph_query_fails := false;
        update_decision_fails := false; send_message_fails := false |}
     (Sample.tx "u1" "t2" "Paris" (Some "device_666")) Sample.decided).1
  = Response500 ClientError_other.
Proof.
  apply (velocity_failure_counts_nothing Sample.env
           {| now := 0; velocity_update_fails := true; get_item_fails := false;
              graph_put_fails := false; graph_query_fails := false;
              update_decision_fails := false; send_message_fails := false |}
           (Sample.tx "u1" "t2" "Paris" (Some "device_666")) Sample.decided).
  reflexivity.
Defined.

(** X13.  After a fresh decision the row of the user holds exactly what
    the response reports: the counter, the location and transaction id of
    the request, the window expiry [now + 60], the decision and the
    (rounded) score.  The score stored before, if any, is overwritten. *)
Theorem finalize_records_the_response env inv p (w w' : World) (b : Body.t) :
  lambda_handler env inv p w = (Response200 b, w') →
  Body.idempotent b = false →
  state_table w' !! Payload.user_id p
  = Some (Item.mk (Some (Body.velocity_counter b)) (Some (Payload.location p))
            (Some (now inv + 60)) (Some (Payload.transaction_id p))
            (Some (Body.status b)) (Some (to_Q (Body.risk_score b)))).
Proof.
  intros Hrun Hfresh.
  destruct (fresh_inv env inv p w w' b Hrun Hfresh)
    as (_ & _ & _ & ring & risk & w1 & w2 & _ & _ & -> & Hst).
  rewrite Hst, lookup_insert_eq. done.
Qed.

Lemma finalize_records_the_response_witness :
  state_table
    (lambda_handler Sample.env (calm 0) (Sample.tx "u1" "t1" "London" None)
       empty_world).2 !! "u1"
  = Some (Item.mk (Some 1) (Some "London") (Some 60) (Some "t1")
            (Some "ALLOW") (Some (inject_Z 55))).
Proof.
  apply (finalize_records_the_response Sample.env (calm 0)
           (Sample.tx "u1" "t1" "London" None) empty_world
           (lambda_handler Sample.env (calm 0)
              (Sample.tx "u1" "t1" "London" None) empty_world).2
           Sample.first_body); vm_compute; reflexivity.
Defined.

(** ** Rows stay well formed *)

Lemma counted_wf inv p (w : World) :
  table_wf w → row_wf (counted inv p w).
Proof.
  intros Hwf. unfold counted, apply_velocity_update, row_wf. simpl.
  split_and!; eauto. eexists. split; [done |].
  unfold stored. destruct (state_table w !! Payload.user_id p) as [r |] eqn:E.
  - destruct (Hwf _ _ E) as ((c & Hc1 & Hc) & _). simpl. rewrite Hc1. simpl. lia.
  - simpl. lia.
Qed.

Lemma decided_wf (r : Item.t) (rs : list string) (n : Number) :
  row_wf r → row_wf (apply_decision_update r (decision_of rs) n).
Proof.
  intros (Hc & Hl & Ht & Hi & _). unfold row_wf. simpl.
  split_and!; try done. destruct rs; simpl; auto.
Qed.

Lemma handler_table_wf env inv p (w : World) :
  table_wf w → table_wf (lambda_handler env inv p w).2.
Proof.
  intros Hwf. destruct (velocity_update_fails inv) eqn:Hv.
  { by rewrite handler_velocity_fault_world. }
  destruct (is_replay_dec w p) as [Hr | Hn].
  - destruct (handler_replay_world env inv p w Hv Hr)
      as (r & w' & -> & (Hs & _) & _).
    intros u row. simpl. rewrite Hs. apply Hwf.
  - destruct (handler_fresh_world env inv p w Hv Hn)
      as (ring & risk & w1 & w2 & w' & _ & _ & -> & Hst & _).
    intros u row. simpl. rewrite Hst. unfold after_velocity.
    destruct (update_decision_fails inv); simpl.
    + destruct (decide (u = Payload.user_id p)) as [-> | Hu].
      * rewrite lookup_insert_eq. intros [= <-]. by apply counted_wf.
      * rewrite lookup_insert_ne by done. apply Hwf.
    + destruct (decide (u = Payload.user_id p)) as [-> | Hu].
      * rewrite lookup_insert_eq. intros [= <-].
        apply decided_wf. by apply counted_wf.
      * rewrite !lookup_insert_ne by done. apply Hwf.
Qed.

(** X14.  Well-formedness of the state table is an invariant of the
    handler, failures included: every row has a counter of at least 1, a
    location, a window expiry, a transaction id, and a decision that is
    [PROCESSING], [ALLOW] or [BLOCK]. *)
Theorem handler_keeps_rows_well_formed env inv p (w : World) :
  table_wf w → table_wf (lambda_handler env inv p w).2.
Proof. apply handler_table_wf. Qed.

Lemma handler_keeps_rows_well_formed_witness :
  table_wf
    (lambda_handler Sample.env (Sample.finalize_down 0)
       (Sample.tx "u1" "t1" "London" None) empty_world).2.
Proof.
  apply (handler_keeps_rows_well_formed Sample.env (Sample.finalize_down 0)
           (Sample.tx "u1" "t1" "London" None) empty_world).
  intros u r H. vm_compute in H. discriminate H.
Defined.

Lemma run_keeps_rows_well_formed env reqs (w : World) :
  table_wf w → table_wf (run env reqs w).2.
Proof.
  revert w. induction reqs as [| [inv p] rest IH]; intros w Hwf; [done |].
  simpl. pose proof (handler_table_wf env inv p w Hwf) as H1.
  destruct (lambda_handler env inv p w) as [r w1]. simpl in H1.
  specialize (IH w1 H1). destruct (run env rest w1) as [rs w2]. done.
Qed.

(** X15.  In a table that only this handler has written to (any sequence
    of invocations from empty tables, with any failures), a replay never
    answers [UNKNOWN]: its status is [PROCESSING], [ALLOW] or [BLOCK]. *)
Theorem replay_status_is_known env reqs inv p (w' : World) (b : Body.t) :
  lambda_handler env inv p (run env reqs empty_world).2 = (Response200 b, w') →
  Body.idempotent b = true →
  Body.status b = "PROCESSING" ∨ Body.status b = "ALLOW"
  ∨ Body.status b = "BLOCK".
Proof.
  intros Hrun Hrep.
  assert (Hwf : table_wf (run env reqs empty_world).2).
  { apply run_keeps_rows_well_formed. intros u r H.
    simpl in H. by rewrite lookup_empty in H. }
  set (w := (run env reqs empty_world).2) in *.
  apply handler_200_inv in Hrun as [(Hr & -> & _) | (_ & Hf)].
  - unfold replay_body. simpl. unfold is_replay, stored in *.
    destruct (state_table w !! Payload.user_id p) as [row |] eqn:E;
      [| done].
    destruct (Hwf _ _ E) as (_ & _ & _ & _ & Hd). simpl.
    destruct Hd as [-> | [-> | ->]]; simpl; auto.
  - destruct Hf as (? & ? & ? & ? & _ & _ & ->). done.
Qed.

Lemma replay_status_is_known_witness :
  Body.status (replay_body
                 (run Sample.env
                    [(Sample.finalize_down 0,
                      Sample.tx "u1" "t1" "London" None)] empty_world).2
                 (Sample.tx "u1" "t1" "London" None)) = "PROCESSING"
  ∨ Body.status (replay_body
                   (run Sample.env
                      [(Sample.finalize_down 0,
                        Sample.tx "u1" "t1" "London" None)] empty_world).2
                   (Sample.tx "u1" "t1" "London" None)) = "ALLOW"
  ∨ Body.status (replay_body
                   (run Sample.env
                      [(Sample.finalize_down 0,
                        Sample.tx "u1" "t1" "London" None)] empty_world).2
                   (Sample.tx "u1" "t1" "London" None)) = "BLOCK".
Proof.
  apply (replay_status_is_known Sample.env
           [(Sample.finalize_down 0, Sample.tx "u1" "t1" "London" None)]
           (calm 9) (Sample.tx "u1" "t1" "London" None)
           (lambda_handler Sample.env (calm 9)
              (Sample.tx "u1" "t1" "London" None)
              (run Sample.env
                 [(Sample.finalize_down 0,
                   Sample.tx "u1" "t1" "London" None)] empty_world).2).2).
  - vm_compute. reflexivity.
  - reflexivity.
Defined.

(** ** Shadow evaluator: batches and classification *)

Lemma shadow_decision_block (q : Q) :
  Shadow.shadow_decision_of q = "BLOCK" ↔ (inject_Z 75 < q)%Q.
Proof.
  unfold Shadow.shadow_decision_of.
  destruct (Qle_bool q (inject_Z 75)) eqn:E; simpl.
  - apply Qle_bool_iff in E. split; [done |].
    intros H. by apply Qlt_not_le in H.
  - split; [intros _ | done]. apply Qnot_le_lt. intros H.
    apply Qle_bool_iff in H. congruence.
Qed.

Lemma shadow_decision_allow (q : Q) :
  Shadow.shadow_decision_of q = "ALLOW" ↔ (q <= inject_Z 75)%Q.
Proof.
  unfold Shadow.shadow_decision_of.
  destruct (Qle_bool q (inject_Z 75)) eqn:E; simpl.
  - apply Qle_bool_iff in E. done.
  - split; [done |]. intros H. apply Qle_bool_iff in H. congruence.
Qed.

Lemma is_conflict_cases (r : Shadow.SqsRecord) (v : Shadow.Json) :
  Shadow.parse_message r = Some v →
  (v = Shadow.JStr "ALLOW" →
   (Shadow.is_conflict r = true ↔ (inject_Z 75 < Shadow.shadow_draw r)%Q))
  ∧ (v = Shadow.JStr "BLOCK" →
     (Shadow.is_conflict r = true ↔ (Shadow.shadow_draw r <= inject_Z 75)%Q))
  ∧ (v ≠ Shadow.JStr "ALLOW" → v ≠ Shadow.JStr "BLOCK" →
     Shadow.is_conflict r = true).
Proof.
  intros Hp. unfold Shadow.is_conflict. rewrite Hp. split_and!.
  - intros ->. simpl. rewrite negb_true_iff, bool_decide_eq_false.
    rewrite <- shadow_decision_block.
    unfold Shadow.shadow_decision_of.
    destruct (negb _); split; congruence.
  - intros ->. simpl. rewrite negb_true_iff, bool_decide_eq_false.
    rewrite <- shadow_decision_allow.
    unfold Shadow.shadow_decision_of.
    destruct (negb _); split; congruence.
  - intros Ha Hb. destruct v as [| | | s | |]; simpl; try done.
    rewrite negb_true_iff, bool_decide_eq_false.
    unfold Shadow.shadow_decision_of. destruct (negb _); congruence.
Qed.

(** X16.  How a readable message is classified.  With champion decision
    [ALLOW] it is a conflict exactly when the challenger's score exceeds
    75; with [BLOCK], exactly when it does not; with any other value of
    [champion_decision] (a missing member counts as ["UNKNOWN"], and a
    value that is not a string never equals a decision) it is always a
    conflict. *)
Theorem shadow_classification (r : Shadow.SqsRecord) (v : Shadow.Json) :
  Shadow.parse_message r = Some v →
  (v = Shadow.JStr "ALLOW" →
   (Shadow.is_conflict r = true ↔ (inject_Z 75 < Shadow.shadow_draw r)%Q))
  ∧ (v = Shadow.JStr "BLOCK" →
     (Shadow.is_conflict r = true ↔ (Shadow.shadow_draw r <= inject_Z 75)%Q))
  ∧ (v ≠ Shadow.JStr "ALLOW" → v ≠ Shadow.JStr "BLOCK" →
     Shadow.is_conflict r = true).
Proof. apply is_conflict_cases. Qed.

Lemma shadow_classification_witness :
  Shadow.is_conflict Sample.conflicting = true
  ↔ (inject_Z 75 < Shadow.shadow_draw Sample.conflicting)%Q.
Proof.
  destruct (shadow_classification Sample.conflicting (Shadow.JStr "ALLOW"))
    as (Ha & _); [reflexivity |].
  apply Ha. reflexivity.
Defined.






(** X18.  The counts of the summary are additive over batches: when the
    messages of a batch, each with the score the challenger draws for it,
    are delivered in two invocations instead of one, the two [processed]
    counts add up to the one of the whole batch, and so do the two
    [conflicts] counts. *)
Theorem shadow_counts_add (l1 l2 : list Shadow.SqsRecord) :
  Shadow.processed (Shadow.lambda_handler (l1 ++ l2))
  = Shadow.processed (Shadow.lambda_handler l1)
    + Shadow.processed (Shadow.lambda_handler l2)
  ∧ Shadow.conflicts (Shadow.lambda_handler (l1 ++ l2))
    = Shadow.conflicts (Shadow.lambda_handler l1)
      + Shadow.conflicts (Shadow.lambda_handler l2).
Proof.
  unfold Shadow.lambda_handler.
  cbn [Shadow.processed Shadow.conflicts].
  rewrite !count_conflicts_filter, filter_app, !length_app. split; lia.
Qed.

(** X19.  The extremes of the agreement rate: a non-empty batch without
    conflicts reports 100, and a batch in which every message is a
    conflict reports 0. *)
Theorem shadow_rate_extremes (records : list Shadow.SqsRecord) :
  records ≠ [] →
  let s := Shadow.lambda_handler records in
  (Shadow.conflicts s = 0 →
   (to_Q (Shadow.agreement_rate s) == inject_Z 100)%Q)
  ∧ (Shadow.conflicts s = Shadow.processed s →
     (to_Q (Shadow.agreement_rate s) == inject_Z 0)%Q).
Proof.
  intros Hne. cbv zeta. unfold Shadow.lambda_handler.
  cbn [Shadow.processed Shadow.conflicts Shadow.agreement_rate].
  destruct records as [| r rest]; [done |].
  rewrite bool_decide_eq_true_2 by (simpl; lia).
  set (n := Z.of_nat (length (r :: rest))).
  assert (Hn : 0 < n) by (subst n; simpl; lia).
  set (c := Shadow.count_conflicts (r :: rest) 0).
  split; intros Hc; rewrite Hc.
  - rewrite (binary64_comp (inject_Z (n - 0) / inject_Z n) (inject_Z 1));
      [vm_compute; reflexivity |].
    rewrite Z.sub_0_r. destruct n as [| n' | n']; try lia.
    unfold Qeq. simpl. lia.
  - rewrite (binary64_comp (inject_Z (n - n) / inject_Z n) (inject_Z 0));
      [vm_compute; reflexivity |].
    rewrite Z.sub_diag. destruct n as [| n' | n']; try lia.
    unfold Qeq. simpl. lia.
Qed.

Lemma shadow_rate_extremes_witness :
  (to_Q (Shadow.agreement_rate (Shadow.lambda_handler [Sample.conflicting]))
   == inject_Z 0)%Q.
Proof.
  destruct (shadow_rate_extremes [Sample.conflicting]) as [_ H];
    [discriminate |].
  apply H. reflexivity.
Defined.

(** ** From the champion to the evaluator *)

(** X20.  What the champion publishes, the evaluator can read: the
    message of a fresh decision decodes to that decision, and it is a
    conflict exactly when the champion blocked and the challenger's score
    is at most 75, or the champion allowed and the score exceeds 75. *)
Theorem published_decision_is_compared env inv p (w w' : World) (b : Body.t)
    (transaction : list (string * Shadow.Json)) (draw : Q) :
  lambda_handler env inv p w = (Response200 b, w') →
  Body.idempotent b = false →
  let r := {| Shadow.body :=
                Some (encode_shadow transaction (shadow_message inv b));
              Shadow.shadow_draw := draw |} in
  Shadow.parse_message r = Some (Shadow.JStr (Body.status b))
  ∧ (Shadow.is_conflict r = true ↔
       (Body.status b = "BLOCK" ∧ (draw <= inject_Z 75)%Q)
       ∨ (Body.status b = "ALLOW" ∧ (inject_Z 75 < draw)%Q)).
Proof.
  intros Hrun Hfresh r.
  assert (Hp : Shadow.parse_message r = Some (Shadow.JStr (Body.status b)))
    by reflexivity.
  split; [done |].
  destruct (fresh_inv env inv p w w' b Hrun Hfresh)
    as (_ & _ & _ & ring & risk & w1 & w2 & _ & _ & Hb & _).
  assert (Hs : Body.status b = "ALLOW" ∨ Body.status b = "BLOCK").
  { rewrite Hb. simpl. destruct (decision_reasons _ _ _ _ _); simpl; auto. }
  destruct (is_conflict_cases r _ Hp) as (Ha & Hbl & _).
  destruct Hs as [Hs | Hs]; rewrite Hs in *.
  - rewrite (Ha eq_refl). subst r. simpl. naive_solver.
  - rewrite (Hbl eq_refl). subst r. simpl. naive_solver.
Qed.

Lemma published_decision_is_compared_witness :
  Shadow.is_conflict
    {| Shadow.body :=
         Some (encode_shadow [("user_id", Shadow.JStr "u1")]
                 (shadow_message (calm 0) Sample.first_body));
       Shadow.shadow_draw := inject_Z 90 |} = true.
Proof.
  destruct (published_decision_is_compared Sample.env (calm 0)
              (Sample.tx "u1" "t1" "London" None) empty_world
              (lambda_handler Sample.env (calm 0)
                 (Sample.tx "u1" "t1" "London" None) empty_world).2
              Sample.first_body [("user_id", Shadow.JStr "u1")] (inject_Z 90))
    as [_ H]; [vm_compute; reflexivity | reflexivity |].
  apply H. right. split; [reflexivity | reflexivity].
Defined.

(** ** Authentication *)

Lemma lower_ascii_space (c : ascii) :
  Api.lower_ascii c = " "%char → c = " "%char.
Proof.
  destruct c as [[] [] [] [] [] [] [] []]; intros H; vm_compute in H;
    try discriminate H; reflexivity.
Qed.

Lemma lower_app (a b : string) : Api.lower (a +:+ b) = Api.lower a +:+ Api.lower b.
Proof. induction a as [| c a IH]; simpl; [done | by rewrite IH]. Qed.

Lemma split_space_nonempty (s : string) :
  ∃ h t, Api.split_space s = h :: t.
Proof.
  induction s as [| c s (h & t & IH)]; simpl; [eauto |].
  case_bool_decide; [eauto |]. rewrite IH. eauto.
Qed.

Lemma split_space_length (c : ascii) (s : string) :
  (length (Api.split_space s) ≤ length (Api.split_space (String c s)))%nat.
Proof.
  simpl. destruct (split_space_nonempty s) as (h & t & E). rewrite E.
  case_bool_decide; simpl; lia.
Qed.

Lemma prefix_cons_true (a b : ascii) (p s : string) :
  String.prefix (String a p) (String b s) = true →
  a = b ∧ String.prefix p s = true.
Proof.
  cbn [String.prefix]. destruct (ascii_dec a b); [done | discriminate].
Qed.

(** A header that passes the [startswith('bearer ')] test has a second
    part, so [split(' ')[1]] cannot raise. *)
Lemma bearer_prefix_has_token (h : string) :
  String.prefix "bearer " (Api.lower h) = true →
  is_Some (Api.split_space h !! 1%nat).
Proof.
  intros Hp. apply lookup_lt_is_Some. unfold lt.
  do 6 (destruct h as [| ? h]; [discriminate Hp |];
        cbn [Api.lower] in Hp; apply prefix_cons_true in Hp as [_ Hp];
        eapply Nat.le_trans; [| apply split_space_length]).
  destruct h as [| c h]; [discriminate Hp |].
  cbn [Api.lower] in Hp. apply prefix_cons_true in Hp as [E _].
  symmetry in E. apply lower_ascii_space in E as ->.
  simpl. destruct (split_space_nonempty h) as (x & t & ->). simpl. lia.
Qed.

Lemma auth_rejects_total (h k : string) : is_Some (Api.auth_rejects h k).
Proof.
  unfold Api.auth_rejects. destruct (str_truthy h); simpl; [| eauto].
  destruct (String.prefix "bearer " (Api.lower h)) eqn:Hp; simpl; [| eauto].
  destruct (bearer_prefix_has_token h Hp) as [t ->]. eauto.
Qed.

(** X21.  No exception leaves the handler: whatever the headers and the
    body, the answer is a 401, a 400, or the answer of the pipeline (200
    or 500).  In particular [auth_header.split(' ')[1]] is only reached
    for headers that have a second part. *)
Theorem handler_always_answers cfg s inv ev (st : Globals.t * World) :
  (Api.lambda_handler cfg s inv ev st).1 ≠ Api.Unhandled.
Proof.
  destruct st as [g w]. unfold Api.lambda_handler.
  destruct (Api.get_secret cfg s _) as [api_key g2].
  destruct (opt_truthy api_key).
  - destruct (auth_rejects_total (Api.auth_header_of (Api.headers ev))
                (default "" api_key)) as [[] ->]; [done |].
    destruct (Api.validate _); [| done].
    by destruct (decide_transaction _ _ _ _).
  - destruct (Api.validate _); [| done].
    by destruct (decide_transaction _ _ _ _).
Qed.

Lemma spaceless_cons (c : ascii) (s : string) :
  spaceless (String c s) → c ≠ " "%char ∧ spaceless s.
Proof.
  unfold spaceless. simpl. case_bool_decide; [done |].
  destruct (split_space_nonempty s) as (h & t & E). rewrite E.
  intros [= -> ->]. done.
Qed.

Lemma split_space_app (a b : string) :
  spaceless a →
  Api.split_space (a +:+ String " " b) = a :: Api.split_space b.
Proof.
  induction a as [| c a IH]; intros Ha; [done |].
  apply spaceless_cons in Ha as [Hc Ha]. simpl.
  rewrite bool_decide_eq_false_2 by done. by rewrite (IH Ha).
Qed.

Lemma split_space_parts (s part : string) :
  part ∈ Api.split_space s → spaceless part.
Proof.
  revert part. induction s as [| c s IH]; intros part; simpl.
  - intros ->%list_elem_of_singleton. done.
  - case_bool_decide as Hc.
    + intros [-> | H]%elem_of_cons; [done | by apply IH].
    + destruct (split_space_nonempty s) as (h & t & E). rewrite E in *.
      intros [-> | H]%elem_of_cons.
      * assert (Hh : spaceless h) by (apply IH; set_solver).
        unfold spaceless in *. simpl.
        rewrite bool_decide_eq_false_2 by done. by rewrite Hh.
      * apply IH. set_solver.
Qed.

Lemma bearer_scheme (scheme : string) :
  Api.lower scheme = "bearer" → spaceless scheme ∧ str_truthy scheme = true.
Proof.
  intros H.
  do 6 (destruct scheme as [| ? scheme]; [discriminate H |];
        injection H as ? H).
  destruct scheme; [| discriminate H].
  split; [| done]. unfold spaceless. simpl.
  repeat (rewrite bool_decide_eq_false_2;
          [| intros ->; match goal with
                        | E : Api.lower_ascii " " = _ |- _ =>
                            vm_compute in E; discriminate E
                        end]).
  done.
Qed.

(** X22.  With api key [key], a header made of the word [bearer] in any
    mix of upper and lower case, one space and the key is accepted; so is
    the same header followed by a space and anything else, since only the
    second space-separated part is compared. *)
Theorem bearer_token_accepted (scheme key rest : string) :
  Api.lower scheme = "bearer" → spaceless key →
  Api.auth_rejects (scheme +:+ " " +:+ key) key = Some false
  ∧ Api.auth_rejects (scheme +:+ " " +:+ key +:+ " " +:+ rest) key = Some false.
Proof.
  intros Hs Hk. destruct (bearer_scheme scheme Hs) as [Hsp Ht].
  assert (Hpre : ∀ x, String.prefix "bearer " (Api.lower (scheme +:+ " " +:+ x))
                      = true).
  { intros x. rewrite lower_app, Hs.
    change (" " +:+ x) with (String " " x). cbn [Api.lower String.append].
    repeat (cbn [String.prefix]; destruct (ascii_dec _ _) as [_ | Hne];
            [| exfalso; apply Hne; vm_compute; reflexivity]).
    by destruct (Api.lower x). }
  assert (Htr : ∀ x, str_truthy (scheme +:+ x) = true).
  { intros x. by destruct scheme. }
  split; unfold Api.auth_rejects.
  - rewrite Htr, Hpre. simpl.
    change (scheme +:+ " " +:+ key) with (scheme +:+ String " " key).
    rewrite (split_space_app scheme key Hsp), Hk. simpl.
    by rewrite bool_decide_eq_true_2.
  - rewrite Htr, Hpre. simpl.
    change (scheme +:+ " " +:+ key +:+ " " +:+ rest)
      with (scheme +:+ String " " (key +:+ String " " rest)).
    rewrite (split_space_app scheme _ Hsp), (split_space_app key rest Hk).
    simpl. by rewrite bool_decide_eq_true_2.
Qed.

Lemma bearer_token_accepted_witness :
  Api.auth_rejects "BeArEr sherlock_secure and more" "sherlock_secure"
  = Some false.
Proof.
  destruct (bearer_token_accepted "BeArEr" "sherlock_secure" "and more")
    as [_ H]; [reflexivity | reflexivity |].
  exact H.
Defined.

(** X23.  An api key that contains a space can never be presented: every
    header is rejected, because the token compared with the key is a part
    of a string split at spaces. *)
Theorem key_with_space_locks_out (key header : string) :
  ¬ spaceless key → Api.auth_rejects header key = Some true.
Proof.
  intros Hk. unfold Api.auth_rejects.
  destruct (str_truthy header); simpl; [| done].
  destruct (String.prefix "bearer " (Api.lower header)) eqn:Hp; simpl; [| done].
  destruct (bearer_prefix_has_token header Hp) as [t Ht]. rewrite Ht.
  rewrite bool_decide_eq_false_2; [done |].
  intros ->. apply Hk. apply (split_space_parts header).
  by apply list_elem_of_lookup_2 in Ht.
Qed.

Lemma key_with_space_locks_out_witness :
  Api.auth_rejects "Bearer my key" "my key" = Some true.
Proof.
  apply (key_with_space_locks_out "my key" "Bearer my key").
  vm_compute. discriminate.
Defined.

(** ** Cold start and the secret *)

Ltac case_ifs :=
  repeat match goal with
         | |- context [if ?b then _ else _] => destruct b eqn:?
         | |- context [match ?o with Some _ => _ | None => _ end] =>
             destruct o eqn:?
         end.

Lemma load_dependencies_keeps s (g : Globals.t) :
  Globals.SECRET_CACHE (Api.load_dependencies s g) = Globals.SECRET_CACHE g
  ∧ Globals.MODEL_LOADED (Api.load_dependencies s g) = Globals.MODEL_LOADED g
  ∧ Globals.xgboost_model (Api.load_dependencies s g) = Globals.xgboost_model g.
Proof. unfold Api.load_dependencies. case_ifs; done. Qed.

Lemma load_dependencies_wf s (g : Globals.t) :
  (Globals.DEPS_LOADED g = true → Api.extract_path ∈ Globals.sys_path g) →
  Globals.DEPS_LOADED (Api.load_dependencies s g) = true →
  Api.extract_path ∈ Globals.sys_path (Api.load_dependencies s g).
Proof.
  intros Hwf. unfold Api.load_dependencies.
  destruct (Globals.DEPS_LOADED g) eqn:Hd; [by auto |].
  destruct (bool_decide (Api.extract_path ∈ Globals.tmp g)
            && bool_decide (Api.xgboost_dir ∈ Globals.tmp g)).
  - destruct (bool_decide (Api.extract_path ∈ Globals.sys_path g)) eqn:E;
      simpl; intros _.
    + by apply bool_decide_eq_true in E.
    + set_solver.
  - destruct (deps_download_fails s); simpl; [done |].
    destruct (extract_fails s); simpl; [done |]. intros _. set_solver.
Qed.

Lemma load_model_secret s (g : Globals.t) :
  Globals.SECRET_CACHE (Api.load_model s g) = Globals.SECRET_CACHE g.
Proof.
  destruct (load_dependencies_keeps s g) as (Hs & _).
  unfold Api.load_model. case_ifs; simpl; done.
Qed.

Lemma load_model_wf s (g : Globals.t) :
  globals_wf g → globals_wf (Api.load_model s g).
Proof.
  intros [Hm Hd].
  pose proof (load_dependencies_wf s g Hd) as Hd'.
  unfold globals_wf, Api.load_model.
  destruct (Globals.MODEL_LOADED g) eqn:Hl; [by auto |].
  case_ifs; simpl; split; try done; eauto.
Qed.

Lemma load_model_failure s (g : Globals.t) :
  Globals.MODEL_LOADED g = false →
  import_xgboost_fails s = true ∨ booster_load s = None →
  Globals.MODEL_LOADED (Api.load_model s g) = false.
Proof.
  intros Hl H. unfold Api.load_model. rewrite Hl.
  destruct H as [-> | ->]; [done |]. case_ifs; done.
Qed.

Lemma get_secret_keeps cfg s (g : Globals.t) :
  let g' := (Api.get_secret cfg s g).2 in
  Globals.MODEL_LOADED g' = Globals.MODEL_LOADED g
  ∧ Globals.xgboost_model g' = Globals.xgboost_model g
  ∧ Globals.DEPS_LOADED g' = Globals.DEPS_LOADED g
  ∧ Globals.sys_path g' = Globals.sys_path g
  ∧ Globals.tmp g' = Globals.tmp g.
Proof. unfold Api.get_secret. case_ifs; try destruct (secret s); done. Qed.

(** The globals an invocation leaves behind. *)
Lemma handler_globals cfg s inv ev (g : Globals.t) (w : World) :
  let g1 := if Globals.MODEL_LOADED g then g else Api.load_model s g in
  let g2 := (Api.get_secret cfg s g1).2 in
  let g' := (Api.lambda_handler cfg s inv ev (g, w)).2.1 in
  g' = g2 ∨ g' = Api.say AuthenticationFailed g2.
Proof.
  cbv zeta. unfold Api.lambda_handler.
  destruct (Api.get_secret cfg s _) as [api_key g2]. simpl.
  destruct (if opt_truthy api_key then _ else _) as [[] |]; simpl; auto.
  destruct (Api.validate _); simpl; auto.
  destruct (decide_transaction _ _ _ _); simpl; auto.
Qed.

(** X24.  Authentication fails open.  When [SECRET_ARN] is not
    configured, or when nothing is cached and Secrets Manager raises,
    answers without a [SecretString], or answers an empty string, no
    request is rejected with 401, whatever its headers. *)
Theorem auth_fails_open cfg s inv ev (g : Globals.t) (w : World) :
  opt_truthy (Config.SECRET_ARN cfg) = false
  ∨ (opt_truthy (Globals.SECRET_CACHE g) = false
     ∧ (secret s = GetSecretRaises ∨ secret s = NoSecretString
        ∨ secret s = SecretString "")) →
  (Api.lambda_handler cfg s inv ev (g, w)).1 ≠ Api.Unauthorized401.
Proof.
  intros H. unfold Api.lambda_handler.
  set (g1 := if Globals.MODEL_LOADED g then g else Api.load_model s g).
  assert (Hc : Globals.SECRET_CACHE g1 = Globals.SECRET_CACHE g).
  { subst g1. destruct (Globals.MODEL_LOADED g); [done |].
    apply load_model_secret. }
  assert (Hk : opt_truthy (Api.get_secret cfg s g1).1 = false).
  { unfold Api.get_secret. destruct H as [-> | (Hn & Hs)]; [done |].
    rewrite Hc, Hn. destruct (opt_truthy (Config.SECRET_ARN cfg)); simpl;
      [| done].
    destruct Hs as [-> | [-> | ->]]; done. }
  destruct (Api.get_secret cfg s g1) as [api_key g2]. simpl in Hk.
  rewrite Hk. destruct (Api.validate _); [| done].
  by destruct (decide_transaction _ _ _ _).
Qed.

Lemma auth_fails_open_witness :
  (Api.lambda_handler Demo.cfg Demo.outage (calm 0)
     (Demo.event "" "u1" "t1" (inject_Z 50)) (Globals.cold, empty_world)).1
  ≠ Api.Unauthorized401.
Proof.
  apply (auth_fails_open Demo.cfg Demo.outage (calm 0)
           (Demo.event "" "u1" "t1" (inject_Z 50)) Globals.cold empty_world).
  right. split; [reflexivity | left; reflexivity].
Defined.

(** X25.  A request answered 401 or 400 has touched none of the tables
    and published nothing.  What it has printed: a 401 prints the line
    [Authentication Failed] after whatever the cold start and the secret
    lookup printed, a 400 prints nothing of its own, and neither prints
    any line of the pipeline.  A body that does not validate is never
    handed to the pipeline. *)
Theorem rejected_requests_touch_no_table cfg s inv ev (g : Globals.t)
    (w : World) :
  let g1 := if Globals.MODEL_LOADED g then g else Api.load_model s g in
  let g2 := (Api.get_secret cfg s g1).2 in
  let r := (Api.lambda_handler cfg s inv ev (g, w)).1 in
  let g' := (Api.lambda_handler cfg s inv ev (g, w)).2.1 in
  let w' := (Api.lambda_handler cfg s inv ev (g, w)).2.2 in
  (r = Api.Unauthorized401 ∨ r = Api.BadRequest400 →
   same_tables w w' ∧ log w' = log w)
  ∧ (r = Api.Unauthorized401 →
     Globals.printed g' = (Globals.printed g2 ++ [AuthenticationFailed])%list)
  ∧ (r = Api.BadRequest400 → Globals.printed g' = Globals.printed g2)
  ∧ (Api.validate (Api.body ev) = None →
     r = Api.Unauthorized401 ∨ r = Api.BadRequest400).
Proof.
  cbv zeta. unfold Api.lambda_handler.
  destruct (Api.get_secret cfg s _) as [api_key g2].
  destruct (opt_truthy api_key).
  - destruct (auth_rejects_total (Api.auth_header_of (Api.headers ev))
                (default "" api_key)) as [[] ->]; simpl;
      [split_and!; by auto |].
    destruct (Api.validate _); simpl; [| split_and!; by auto].
    destruct (decide_transaction _ _ _ _); simpl.
    split_and!; [by intros [? | ?] | done | done | done].
  - destruct (Api.validate _); simpl; [| split_and!; by auto].
    destruct (decide_transaction _ _ _ _); simpl.
    split_and!; [by intros [? | ?] | done | done | done].
Qed.

Lemma rejected_requests_touch_no_table_witness :
  same_tables Sample.decided
    (Api.lambda_handler Demo.cfg Demo.healthy (calm 0)
       (Demo.event "Bearer wrong" "u1" "t2" (inject_Z 50))
       (Demo.warm, Sample.decided)).2.2
  ∧ Globals.printed
      (Api.lambda_handler Demo.cfg Demo.healthy (calm 0)
         (Demo.event "Bearer wrong" "u1" "t2" (inject_Z 50))
         (Demo.warm, Sample.decided)).2.1
    = [AuthenticationFailed].
Proof.
  destruct (rejected_requests_touch_no_table Demo.cfg Demo.healthy (calm 0)
              (Demo.event "Bearer wrong" "u1" "t2" (inject_Z 50))
              Demo.warm Sample.decided) as (H & Hp & _).
  split.
  - apply H. left. vm_compute. reflexivity.
  - rewrite Hp; [reflexivity | vm_compute; reflexivity].
Defined.



Lemma say_wf (l : Line) (g : Globals.t) : globals_wf g → globals_wf (Api.say l g).
Proof. done. Qed.

Lemma handler_globals_wf cfg s inv ev (g : Globals.t) (w : World) :
  globals_wf g → globals_wf (Api.lambda_handler cfg s inv ev (g, w)).2.1.
Proof.
  intros Hwf.
  set (g1 := if Globals.MODEL_LOADED g then g else Api.load_model s g).
  assert (H1 : globals_wf g1).
  { subst g1. destruct (Globals.MODEL_LOADED g); [done |].
    by apply load_model_wf. }
  assert (H2 : globals_wf (Api.get_secret cfg s g1).2).
  { destruct (get_secret_keeps cfg s g1) as (Hl & Hm & Hd & Hp & _).
    destruct H1 as [Ha Hb]. unfold globals_wf.
    rewrite Hl, Hm, Hd, Hp. done. }
  destruct (handler_globals cfg s inv ev g w) as [-> | ->]; [done |].
  by apply say_wf.
Qed.

(** X27.  The globals stay consistent over the life of a container,
    whatever S3, the archive, the import system and Secrets Manager do:
    whenever [MODEL_LOADED] is set the model handle is present, and
    whenever [DEPS_LOADED] is set [/tmp/python] is on [sys.path]. *)
Theorem container_globals_stay_consistent cfg calls (g : Globals.t) (w : World) :
  globals_wf g → globals_wf (Api.serve cfg calls (g, w)).2.1.
Proof.
  revert g w. induction calls as [| [[s inv] ev] rest IH]; intros g w Hwf;
    [done |].
  cbn [Api.serve]. pose proof (handler_globals_wf cfg s inv ev g w Hwf) as H1.
  destruct (Api.lambda_handler cfg s inv ev (g, w)) as [r [g1 w1]].
  simpl in H1. specialize (IH g1 w1 H1).
  destruct (Api.serve cfg rest (g1, w1)) as [rs st2]. exact IH.
Qed.

Lemma container_globals_stay_consistent_witness :
  globals_wf
    (Api.serve Demo.cfg
       [(Demo.outage, calm 0, Demo.event "" "u1" "t1" (inject_Z 50));
        (Demo.healthy, calm 1, Demo.event "" "u1" "t2" (inject_Z 50))]
       (Globals.cold, empty_world)).2.1.
Proof.
  apply (container_globals_stay_consistent Demo.cfg
           [(Demo.outage, calm 0, Demo.event "" "u1" "t1" (inject_Z 50));
            (Demo.healthy, calm 1, Demo.event "" "u1" "t2" (inject_Z 50))]
           Globals.cold empty_world).
  split; discriminate.
Defined.

Lemma handler_keeps_loaded cfg s inv ev (g : Globals.t) (w : World) :
  Globals.MODEL_LOADED g = true →
  let g' := (Api.lambda_handler cfg s inv ev (g, w)).2.1 in
  Globals.MODEL_LOADED g' = true
  ∧ Globals.xgboost_model g' = Globals.xgboost_model g
  ∧ Globals.DEPS_LOADED g' = Globals.DEPS_LOADED g
  ∧ Globals.sys_path g' = Globals.sys_path g
  ∧ Globals.tmp g' = Globals.tmp g.
Proof.
  intros Hl. cbv zeta.
  pose proof (handler_globals cfg s inv ev g w) as H. cbv zeta in H.
  rewrite Hl in H.
  destruct (get_secret_keeps cfg s g) as (H1 & H2 & H3 & H4 & H5).
  destruct H as [-> | ->]; simpl; rewrite ?H1, ?H2, ?H3, ?H4, ?H5; done.
Qed.

(** X28.  Once the model is loaded it stays loaded: no later invocation
    in the container replaces the model handle, touches [/tmp] or
    [sys.path], or resets the flags, however the surroundings behave. *)
Theorem loaded_model_is_kept cfg calls (g : Globals.t) (w : World) :
  Globals.MODEL_LOADED g = true →
  let g' := (Api.serve cfg calls (g, w)).2.1 in
  Globals.MODEL_LOADED g' = true
  ∧ Globals.xgboost_model g' = Globals.xgboost_model g
  ∧ Globals.DEPS_LOADED g' = Globals.DEPS_LOADED g
  ∧ Globals.sys_path g' = Globals.sys_path g
  ∧ Globals.tmp g' = Globals.tmp g.
Proof.
  revert g w. induction calls as [| [[s inv] ev] rest IH]; intros g w Hl;
    [done |].
  cbn [Api.serve]. pose proof (handler_keeps_loaded cfg s inv ev g w Hl) as H1.
  destruct (Api.lambda_handler cfg s inv ev (g, w)) as [r [g1 w1]].
  simpl in H1. destruct H1 as (Ha & Hb & Hc & Hd & He).
  specialize (IH g1 w1 Ha).
  destruct (Api.serve cfg rest (g1, w1)) as [rs st2]. simpl in *.
  destruct IH as (? & ? & ? & ? & ?). split_and!; congruence.
Qed.

Lemma loaded_model_is_kept_witness :
  Globals.tmp
    (Api.serve Demo.cfg
       [(Demo.outage, calm 0,
         Demo.event "Bearer sherlock_secure" "u1" "t1" (inject_Z 50))]
       (Demo.warm, empty_world)).2.1
  = Globals.tmp Demo.warm.
Proof.
  apply (loaded_model_is_kept Demo.cfg
           [(Demo.outage, calm 0,
             Demo.event "Bearer sherlock_secure" "u1" "t1" (inject_Z 50))]
           Demo.warm empty_world).
  reflexivity.
Defined.

Lemma get_secret_cached cfg s (g : Globals.t) (k : string) :
  opt_truthy (Config.SECRET_ARN cfg) = true → str_truthy k = true →
  Globals.SECRET_CACHE g = Some k →
  Api.get_secret cfg s g = (Some k, g).
Proof.
  intros Ha Hk Hc. unfold Api.get_secret. rewrite Ha, Hc. simpl.
  by rewrite Hk.
Qed.

Lemma handler_keeps_secret cfg s inv ev (g : Globals.t) (w : World) (k : string) :
  opt_truthy (Config.SECRET_ARN cfg) = true → str_truthy k = true →
  Globals.SECRET_CACHE g = Some k →
  Globals.SECRET_CACHE (Api.lambda_handler cfg s inv ev (g, w)).2.1 = Some k.
Proof.
  intros Ha Hk Hc.
  pose proof (handler_globals cfg s inv ev g w) as H. cbv zeta in H.
  set (g1 := if Globals.MODEL_LOADED g then g else Api.load_model s g) in *.
  assert (H1 : Globals.SECRET_CACHE g1 = Some k).
  { subst g1. destruct (Globals.MODEL_LOADED g); [done |].
    by rewrite load_model_secret. }
  rewrite (get_secret_cached cfg s g1 k Ha Hk H1) in H.
  destruct H as [-> | ->]; done.
Qed.

(** X29.  The secret is fetched once per container.  The first
    invocation that obtains a non-empty [SecretString] caches it; from
    then on every invocation authenticates against the cached value
    without asking Secrets Manager, so an outage - or a rotated key - is
    not noticed until the container is replaced. *)
Theorem secret_is_cached cfg (k : string) :
  opt_truthy (Config.SECRET_ARN cfg) = true → str_truthy k = true →
  (∀ s inv ev g w,
     opt_truthy (Globals.SECRET_CACHE g) = false → secret s = SecretString k →
     Globals.SECRET_CACHE (Api.lambda_handler cfg s inv ev (g, w)).2.1 = Some k)
  ∧ (∀ calls g w,
       Globals.SECRET_CACHE g = Some k →
       Globals.SECRET_CACHE (Api.serve cfg calls (g, w)).2.1 = Some k
       ∧ ∀ s, Api.get_secret cfg s g = (Some k, g)).
Proof.
  intros Ha Hk. split.
  - intros s inv ev g w Hc Hs.
    pose proof (handler_globals cfg s inv ev g w) as H. cbv zeta in H.
    set (g1 := if Globals.MODEL_LOADED g then g else Api.load_model s g) in *.
    assert (H1 : Globals.SECRET_CACHE g1 = Globals.SECRET_CACHE g).
    { subst g1. destruct (Globals.MODEL_LOADED g); [done |].
      apply load_model_secret. }
    assert (H2 : Globals.SECRET_CACHE (Api.get_secret cfg s g1).2 = Some k).
    { unfold Api.get_secret. rewrite Ha, H1, Hc, Hs. done. }
    destruct H as [-> | ->]; done.
  - intros calls. induction calls as [| [[s inv] ev] rest IH]; intros g w Hc.
    + split; [done |]. intros s. by apply get_secret_cached.
    + split; [| intros s0; by apply get_secret_cached].
      cbn [Api.serve]. pose proof (handler_keeps_secret cfg s inv ev g w k Ha Hk Hc) as H1.
      destruct (Api.lambda_handler cfg s inv ev (g, w)) as [r [g1 w1]].
      simpl in H1. destruct (IH g1 w1 H1) as [IH1 _].
      destruct (Api.serve cfg rest (g1, w1)) as [rs st2]. exact IH1.
Qed.

Lemma secret_is_cached_witness :
  Globals.SECRET_CACHE
    (Api.lambda_handler Demo.cfg Demo.healthy (calm 0)
       (Demo.event "" "u1" "t1" (inject_Z 50)) (Globals.cold, empty_world)).2.1
  = Some "sherlock_secure".
Proof.
  destruct (secret_is_cached Demo.cfg "sherlock_secure") as [H _];
    [reflexivity | reflexivity |].
  apply H; reflexivity.
Defined.

(** X30.  A cold start that cannot bring up the model (the import fails,
    or the model file does not load) does not fail the request: the
    pipeline runs with the heuristic, the fresh response is scored
    [50 + 5 * velocity_counter] and reports [model_loaded] false. *)
Theorem cold_start_failure_falls_back cfg s inv ev (g : Globals.t)
    (w : World) (b : Body.t) (st' : Globals.t * World) :
  Globals.MODEL_LOADED g = false →
  import_xgboost_fails s = true ∨ booster_load s = None →
  Api.lambda_handler cfg s inv ev (g, w) = (Api.Answer (Response200 b), st') →
  Body.idempotent b = false →
  Globals.MODEL_LOADED st'.1 = false
  ∧ Body.model_loaded b = Some false
  ∧ Body.risk_score b = PyInt (50 + 5 * Body.velocity_counter b).
Proof.
  intros Hl Hfail Hrun Hfresh.
  assert (H1 : Globals.MODEL_LOADED (Api.load_model s g) = false)
    by by apply load_model_failure.
  unfold Api.lambda_handler in Hrun. rewrite Hl in Hrun.
  pose proof (get_secret_keeps cfg s (Api.load_model s g)) as (H2 & _).
  destruct (Api.get_secret cfg s (Api.load_model s g)) as [api_key g2].
  simpl in H2. rewrite H1 in H2.
  destruct (if opt_truthy api_key then _ else _) as [[] |]; try done.
  destruct (Api.validate (Api.body ev)) as [payload |]; [| done].
  destruct (decide_transaction (Api.env_of cfg g2) inv payload w)
    as [r w'] eqn:E.
  injection Hrun as -> <-. simpl.
  destruct (heuristic_decision (Api.env_of cfg g2) inv payload w w' b E Hfresh)
    as (Hs & Hm & _); [exact H2 |].
  done.
Qed.

Lemma cold_start_failure_falls_back_witness :
  Body.risk_score Sample.first_body = PyInt (50 + 5 * 1).
Proof.
  destruct (cold_start_failure_falls_back Demo.cfg Demo.outage (calm 0)
              (Demo.event "" "u1" "t1" (inject_Z 50)) Globals.cold empty_world
              Sample.first_body
              (Api.lambda_handler Demo.cfg Demo.outage (calm 0)
                 (Demo.event "" "u1" "t1" (inject_Z 50))
                 (Globals.cold, empty_world)).2)
    as (_ & _ & H); [reflexivity | left; reflexivity | | reflexivity |].
  - vm_compute. reflexivity.
  - exact H.
Defined.

Lemma load_dependencies_keeps_model_file s (g : Globals.t) :
  Api.local_path ∈ Globals.tmp g →
  Api.local_path ∈ Globals.tmp (Api.load_dependencies s g).
Proof.
  intros Hin. unfold Api.load_dependencies. case_ifs; simpl; try done.
  - set_solver.
  - apply elem_of_difference. split; [set_solver |].
    intros H%elem_of_singleton. discriminate H.
Qed.

(** X10.  The model file is fetched only when it is not on disk.  With
    [/tmp/model.json] present and the model not yet loaded, whether S3
    can deliver the model or not plays no part: the load succeeds exactly
    when [xgboost] can be imported and the file loads, no download is
    announced, and the handle is then the loaded model.  When the file
    does not load, the handle is left holding an empty [Booster] while
    [MODEL_LOADED] stays false. *)
Theorem model_file_is_fetched_once s (g : Globals.t) :
  Globals.MODEL_LOADED g = false → Api.local_path ∈ Globals.tmp g →
  let g' := Api.load_model s g in
  (Globals.MODEL_LOADED g' = true
   ↔ import_xgboost_fails s = false ∧ is_Some (booster_load s))
  ∧ (Globals.MODEL_LOADED g' = true → Globals.xgboost_model g' = booster_load s)
  ∧ (import_xgboost_fails s = false → booster_load s = None →
     Globals.xgboost_model g' = Some (empty_booster s))
  ∧ Api.local_path ∈ Globals.tmp g'
  ∧ (DownloadingModel ∈ Globals.printed g' → DownloadingModel ∈ Globals.printed g).
Proof.
  intros Hl Hin. cbv zeta.
  pose proof (load_dependencies_keeps_model_file s g Hin) as Hin1.
  assert (Hp : DownloadingModel ∈ Globals.printed (Api.load_dependencies s g) →
               DownloadingModel ∈ Globals.printed g).
  { unfold Api.load_dependencies. case_ifs; simpl; try done;
      rewrite ?elem_of_app, ?list_elem_of_singleton; naive_solver. }
  unfold Api.load_model. rewrite Hl.
  rewrite (bool_decide_eq_true_2 _ Hin1). simpl.
  destruct (import_xgboost_fails s); simpl.
  - split_and!; try done.
    + split; [done | by intros [? _]].
    + rewrite elem_of_app, list_elem_of_singleton. naive_solver.
  - destruct (booster_load s) as [m |]; simpl.
    + split_and!; try done; [set_solver |].
      rewrite elem_of_app, list_elem_of_singleton. naive_solver.
    + split_and!; try done.
      * split; [done |]. intros [_ [? ?]]. done.
      * set_solver.
      * rewrite elem_of_app, list_elem_of_singleton. naive_solver.
Qed.

Lemma model_file_is_fetched_once_witness :
  Globals.MODEL_LOADED
    (Api.load_model Demo.outage
       (Globals.mk None false false None [] {[Api.local_path]} []))
  = true
  ↔ import_xgboost_fails Demo.outage = false
    ∧ is_Some (booster_load Demo.outage).
Proof.
  destruct (model_file_is_fetched_once Demo.outage
              (Globals.mk None false false None [] {[Api.local_path]} []))
    as [H _]; [reflexivity | vm_compute; reflexivity |].
  exact H.
Defined.
